(** * Vault replication resources: convergence wait, state projection, existence checks

    A shallow embedding of the replication resources of the Terraform
    provider for Vault (package [vault]):

    - the primary configuration resource (the version whose
      [waitForReplication] polls [/v1/sys/health] under a backoff policy),
    - the secondary configuration resource,
    - the secondary-token resource.

    Go code runs here in a small monad [M] over a world made of the
    [*schema.ResourceData] being mutated in place and a chronological trace
    of the calls made on the outside (API writes and reads, health
    requests, timer waits, stores into the resource data).  A run ends with
    a value, with a Go runtime panic, or out of fuel (only the retry loop of
    the backoff library consumes fuel). *)

From stdpp Require Import gmap strings list fin_maps.

#[local] Set Warnings "-register-all".
#[local] Open Scope string_scope.

(** ** Go values *)

(** An [interface{}] as it comes out of a decoded JSON document or of the
    resource data. [VNil] is the nil interface (JSON null or an absent map
    entry read by indexing). No code path of the package looks into a
    number, so numbers are kept as integers. *)
Inductive value : Type :=
| VNil
| VString (s : string)
| VBool (b : bool)
| VNumber (z : Z)
| VList (l : list value)
| VMap (m : gmap string value).

(** The static types named by the type assertions of the package. *)
Inductive gotype : Type :=
| TString        (* string *)
| TSlice         (* []interface{} *)
| TMapString.    (* map[string]interface{} *)

(** [m[k]] on a Go map: the zero value (nil interface) when [k] is absent. *)
Definition index (m : gmap string value) (k : string) : value :=
  default VNil (m !! k).

(** [_, ok := m[k]]. *)
Definition has_key (m : gmap string value) (k : string) : bool :=
  bool_decide (is_Some (m !! k)).

(** [v == "lit"] between an interface and a string constant: true exactly
    when the dynamic type is string and the strings are equal. *)
Definition eq_string (v : value) (s : string) : bool :=
  match v with
  | VString t => bool_decide (t = s)
  | _ => false
  end.

(** [v != nil]. *)
Definition not_nil (v : value) : bool :=
  match v with
  | VNil => false
  | _ => true
  end.

(** ** Go errors *)

(** An argument handed to [fmt.Errorf]. *)
Inductive fmtarg (E : Type) : Type :=
| AString (s : string)
| AValue (v : value)
| AError (e : E).
Arguments AString {E} s.
Arguments AValue {E} v.
Arguments AError {E} e.

(** An [error]: either one produced outside the package (transport, body
    read, JSON decoding, client acquisition), kept opaque, or one built by
    [fmt.Errorf], kept as its format string and arguments. *)
Inductive error : Type :=
| ErrExternal (msg : string)
| Errorf (format : string) (args : list (fmtarg error)).

(** Runtime panics the package can raise. *)
Inductive panic : Type :=
| NilDereference                                  (* field access through a nil *api.Secret or nil WrapInfo *)
| InterfaceConversion (v : value) (want : gotype). (* failed unchecked x.(T) *)

(** ** The outside world *)

(** [time.Duration], in nanoseconds. *)
Definition Duration := Z.
Definition Second : Duration := 1000000000%Z.

(** Payload of a logical write: a possibly nil [map[string]interface{}]. *)
Definition payload := option (gmap string value).

Record SecretWrapInfo : Type := { Token : string }.

(** [api.Secret], cut down to the fields the package reads. *)
Record Secret : Type := {
  Data : gmap string value;
  WrapInfo : option SecretWrapInfo
}.

(** What one [GET /v1/sys/health] round trip gives, step by step as
    [retryRead] consumes it: the raw request, [io.ReadAll] on the body,
    [json.Unmarshal] into a [map[string]interface{}]. *)
Inductive HealthReply : Type :=
| TransportError (e : error)
| BodyReadError (e : error)
| BodyNotJSON (e : error)
| Body (data : gmap string value).

(** The API client: a deterministic oracle. Logical reads and writes answer
    with Go's pair (response pointer, error); the health endpoint answers
    the n-th request of a run (counted from 0). *)
Record Client : Type := {
  Write : string → payload → option Secret * option error;
  Read : string → option Secret * option error;
  RawRequest : nat → HealthReply
}.

(** What [provider.GetClient(d, meta)] yields for the [meta] at hand. *)
Inductive Meta : Type :=
| MetaClient (c : Client)
| MetaError (e : error).

Inductive event : Type :=
| EvWrite (path : string) (data : payload)
| EvRead (path : string)
| EvHealth (method path : string) (params : list (string * string))
| EvWarn (delay : Duration)     (* "[WARN] Replication pending, retrying in %s" *)
| EvSleep (delay : Duration)    (* the retry timer *)
| EvSetId (id : string)
| EvSet (key : string) (v : value).

(** [*schema.ResourceData]: the durable identifier, the attributes, and
    what the schema of the resource lets [d.Set] store. Every key under
    which the package stores a string is a [TypeString] attribute of the
    resource, and [d.Set] takes a string for such a key; whether it takes
    another value (a slice for a [TypeSet] attribute) is decided by the SDK
    from the shape of the elements, and is left to [accepts]. A slice that
    was taken is recorded as [VList], standing for the set made of it. *)
Record ResourceData : Type := {
  Id : string;
  attrs : gmap string value;
  accepts : string → value → bool
}.

Record World : Type := {
  rd : ResourceData;
  trace : list event
}.

Definition init (d : ResourceData) : World := {| rd := d; trace := [] |}.

Definition is_health (e : event) : bool :=
  match e with EvHealth _ _ _ => true | _ => false end.

(** Number of health requests issued so far. *)
Definition health_requests (t : list event) : nat :=
  length (filter (λ e, is_health e = true) t).

(** ** The monad of Go code *)

Inductive outcome (A : Type) : Type :=
| Done (a : A)
| Panicked (p : panic)
| OutOfFuel.
Arguments Done {A} a.
Arguments Panicked {A} p.
Arguments OutOfFuel {A}.

Definition M (A : Type) : Type := World → outcome A * World.

Definition ret {A} (a : A) : M A := λ w, (Done a, w).

Definition bind {A B} (m : M A) (k : A → M B) : M B :=
  λ w, match m w with
       | (Done a, w') => k a w'
       | (Panicked p, w') => (Panicked p, w')
       | (OutOfFuel, w') => (OutOfFuel, w')
       end.

Definition raise {A} (p : panic) : M A := λ w, (Panicked p, w).

Definition out_of_fuel {A} : M A := λ w, (OutOfFuel, w).

Declare Scope go_scope.
Delimit Scope go_scope with go.
Notation "x <- m ;; k" := (bind m (λ x, k))
  (at level 100, m at next level, right associativity) : go_scope.
Notation "m ;; k" := (bind m (λ _, k))
  (at level 100, right associativity) : go_scope.
#[local] Open Scope go_scope.

Definition emit (e : event) : M unit :=
  λ w, (Done (), {| rd := rd w; trace := trace w ++ [e] |}).

(** Unchecked type assertions. *)
Definition assert_string (v : value) : M string :=
  match v with
  | VString s => ret s
  | _ => raise (InterfaceConversion v TString)
  end.

Definition assert_slice (v : value) : M (list value) :=
  match v with
  | VList l => ret l
  | _ => raise (InterfaceConversion v TSlice)
  end.

Definition assert_map (v : value) : M (gmap string value) :=
  match v with
  | VMap m => ret m
  | _ => raise (InterfaceConversion v TMapString)
  end.

(** Field access through a pointer that may be nil. *)
Definition deref {A} (p : option A) : M A :=
  match p with
  | Some a => ret a
  | None => raise NilDereference
  end.

(** *** Resource data *)

(** The string held by a [schema.TypeString] attribute: the stored
    string, or the zero value [""] when the attribute is unset. *)
Definition get_string (d : ResourceData) (key : string) : string :=
  match attrs d !! key with
  | Some (VString s) => s
  | _ => ""
  end.

(** [d.Get(key)] for a [schema.TypeString] attribute. *)
Definition Get (key : string) : M value :=
  λ w, (Done (VString (get_string (rd w) key)), w).

(** [d.GetOk(key)]: the value and whether it is set to a non-zero value. *)
Definition GetOk (key : string) : M (value * bool) :=
  λ w, (Done (VString (get_string (rd w) key),
              negb (bool_decide (get_string (rd w) key = ""))), w).

Definition SetId (id : string) : M unit :=
  λ w, (Done (), {| rd := {| Id := id; attrs := attrs (rd w);
                             accepts := accepts (rd w) |};
                    trace := trace w ++ [EvSetId id] |}).

(** Whether [d.Set(key, v)] stores [v]. *)
Definition takes (d : ResourceData) (key : string) (v : value) : bool :=
  match v with
  | VString _ => true
  | _ => accepts d key v
  end.

(** [d.Set(key, v)]: the value is stored if the schema takes it; if not,
    [d.Set] returns an error and the attribute stays as it was. The
    package never looks at that error, so it is not returned here. *)
Definition Set_ (key : string) (v : value) : M unit :=
  λ w, (Done (),
        {| rd := if takes (rd w) key v
                 then {| Id := Id (rd w); attrs := <[key := v]> (attrs (rd w));
                         accepts := accepts (rd w) |}
                 else rd w;
           trace := trace w ++ [EvSet key v] |}).

(** *** Client calls *)

Definition Logical_Write (c : Client) (path : string) (data : payload)
  : M (option Secret * option error) :=
  emit (EvWrite path data) ;; ret (Write c path data).

Definition Logical_Read (c : Client) (path : string)
  : M (option Secret * option error) :=
  emit (EvRead path) ;; ret (Read c path).

Definition RawRequestWithContext (c : Client) (method path : string)
    (params : list (string * string)) : M HealthReply :=
  λ w, (Done (RawRequest c (health_requests (trace w))),
        {| rd := rd w; trace := trace w ++ [EvHealth method path params] |}).

(** ** The backoff library (github.com/cenkalti/backoff/v4)

    The three pieces [waitForReplication] uses. *)
Module backoff.

(** [const Stop time.Duration = -1]. *)
Definition Stop : Duration := (-1)%Z.

(** [type BackOff interface { NextBackOff() time.Duration; Reset() }],
    with the receiver's state passed explicitly. *)
Class BackOff (B : Type) : Type := {
  NextBackOff : B → Duration * B;
  Reset : B → B
}.

Record ConstantBackOff : Type := { Interval : Duration }.

Definition NewConstantBackOff (d : Duration) : ConstantBackOff :=
  {| Interval := d |}.

#[export] Instance ConstantBackOff_BackOff : BackOff ConstantBackOff := {|
  NextBackOff b := (Interval b, b);
  Reset b := b
|}.

(** [backOffTries]: stops once [NextBackOff] has been called [maxTries]
    times since the last [Reset]. The counters are uint64 in Go;
    [numTries] only grows while below [maxTries], so it never wraps. *)
Record backOffTries (D : Type) : Type := {
  delegate : D;
  maxTries : N;
  numTries : N
}.
Arguments delegate {D} _.
Arguments maxTries {D} _.
Arguments numTries {D} _.

Definition WithMaxRetries {D} (b : D) (max : N) : backOffTries D :=
  {| delegate := b; maxTries := max; numTries := 0 |}.

#[export] Instance backOffTries_BackOff {D} `{BackOff D} : BackOff (backOffTries D) := {|
  NextBackOff b :=
    if (maxTries b =? 0)%N then (Stop, b)
    else if (maxTries b <=? numTries b)%N then (Stop, b)
    else
      let '(next, dl) := NextBackOff (delegate b) in
      (next, {| delegate := dl; maxTries := maxTries b;
                numTries := (numTries b + 1)%N |});
  Reset b := {| delegate := Reset (delegate b); maxTries := maxTries b;
                numTries := 0 |}
|}.

(** The loop of [RetryNotify]: run the operation; on an error ask the
    policy for the next delay; give up with that error on [Stop];
    otherwise notify, wait on the timer and go round again. The
    operations of this package never return a [*PermanentError] and the
    policy carries no context, so those two exits are not taken. *)
Fixpoint retry_loop {B} `{BackOff B} (fuel : nat) (operation : M (option error))
    (b : B) (notify : error → Duration → M unit) : M (option error) :=
  match fuel with
  | O => out_of_fuel
  | S fuel' =>
      err <- operation ;;
      match err with
      | None => ret None
      | Some err =>
          let '(next, b') := NextBackOff b in
          if (next =? Stop)%Z then ret (Some err)
          else
            notify err next ;;
            emit (EvSleep next) ;;
            retry_loop fuel' operation b' notify
      end
  end.

Definition RetryNotify {B} `{BackOff B} (fuel : nat) (operation : M (option error))
    (b : B) (notify : error → Duration → M unit) : M (option error) :=
  retry_loop fuel operation (Reset b) notify.

End backoff.
Import backoff.

(** ** Primary configuration resource *)

Definition replicationPath : string := "/sys/replication/".

Definition replicationPrimaryCreatePath (typeValue : string) : string :=
  replicationPath ++ typeValue ++ "/primary/enable".

Definition replicationPrimaryReadPath (typeValue : string) : string :=
  replicationPath ++ typeValue ++ "/status".

Definition replicationPrimaryDeletePath (typeValue : string) : string :=
  replicationPath ++ typeValue ++ "/primary/disable".

(** The state the health field is compared with: ["running"] stands for
    ["primary"]. *)
Definition target_state (state : string) : string :=
  if bool_decide (state = "running") then "primary" else state.

(** [fmt.Sprintf("replication_%s_mode", typeValue)]. *)
Definition healthQuery (typeValue : string) : string :=
  "replication_" ++ typeValue ++ "_mode".

(** What one attempt returns once the reply is in. *)
Definition attempt_result (typeValue state : string) (reply : HealthReply)
  : option error :=
  match reply with
  | TransportError err => Some err
  | BodyReadError err => Some err
  | BodyNotJSON err => Some err
  | Body data =>
      match data !! healthQuery typeValue with
      | Some (VString val) =>
          if bool_decide (val = state) then None
          else Some (Errorf "error waiting for replication" [])
      | _ => Some (Errorf "error waiting for replication" [])
      end
  end.

(** The closure [retryRead]. *)
Definition retryRead (client : Client) (typeValue state : string)
  : M (option error) :=
  reply <- RawRequestWithContext client "GET" "/v1/sys/health"
             [("standbyok", "true"); ("perfstandbyok", "true")] ;;
  ret (attempt_result typeValue state reply).

Definition waitForReplication (fuel : nat) (typeValue state path : string)
    (meta : Meta) : M (option error) :=
  match meta with
  | MetaError e => ret (Some e)
  | MetaClient client =>
      let state := target_state state in
      let bo := WithMaxRetries (NewConstantBackOff (1 * Second)%Z) 10%N in
      err <- RetryNotify fuel (retryRead client typeValue state) bo
               (λ _ duration, emit (EvWarn duration)) ;;
      match err with
      | Some err =>
          ret (Some (Errorf "error waiting replication at %s: %v"
                       [AString path; AError err]))
      | None => ret None
      end
  end.

(** [if error, ok := resp.Data["Errors"]; ok] under [resp != nil]. *)
Definition errors_entry (resp : option Secret) : option value :=
  match resp with
  | None => None
  | Some resp => Data resp !! "Errors"
  end.

Definition replicationPrimaryRead (meta : Meta) : M (option error) :=
  match meta with
  | MetaError e => ret (Some e)
  | MetaClient client =>
      tv <- Get "type" ;;
      typeValue <- assert_string tv ;;
      let path := replicationPrimaryReadPath typeValue in
      r <- Logical_Read client path ;;
      match r.2 with
      | Some err => ret (Some err)
      | None =>
          resp <- deref r.1 ;;
          (if eq_string (index (Data resp) "mode") "disabled"
           then SetId "" else ret ()) ;;
          v <- assert_string (index (Data resp) "primary_cluster_addr") ;;
          Set_ "primary_cluster_addr" (VString v) ;;
          v <- assert_string (index (Data resp) "cluster_id") ;;
          Set_ "cluster_id" (VString v) ;;
          v <- assert_string (index (Data resp) "mode") ;;
          Set_ "mode" (VString v) ;;
          v <- assert_string (index (Data resp) "state") ;;
          Set_ "state" (VString v) ;;
          l <- assert_slice (index (Data resp) "known_secondaries") ;;
          Set_ "known_secondaries" (VList l) ;;
          l <- assert_slice (index (Data resp) "secondaries") ;;
          Set_ "secondaries" (VList l) ;;
          ret None
      end
  end.

Definition replicationPrimaryCreate (fuel : nat) (meta : Meta) : M (option error) :=
  match meta with
  | MetaError e => ret (Some e)
  | MetaClient client =>
      tv <- Get "type" ;;
      typeValue <- assert_string tv ;;
      let path := replicationPrimaryCreatePath typeValue in
      av <- Get "primary_cluster_addr" ;;
      primaryClusterAddr <- assert_string av ;;
      let data : payload :=
        if negb (bool_decide (primaryClusterAddr = ""))
        then Some {[ "primary_cluster_addr" := VString primaryClusterAddr ]}
        else None in
      r <- Logical_Write client path data ;;
      match r.2 with
      | Some err =>
          ret (Some (Errorf "error enabling %s replication: %s"
                       [AString typeValue; AError err]))
      | None =>
          match errors_entry r.1 with
          | Some error =>
              ret (Some (Errorf "error enabling %s replication: %s"
                           [AString typeValue; AValue error]))
          | None =>
              SetId path ;;
              waitForReplication fuel typeValue "running" path meta ;;
              replicationPrimaryRead meta
          end
      end
  end.

Definition replicationPrimaryDelete (fuel : nat) (meta : Meta) : M (option error) :=
  match meta with
  | MetaError e => ret (Some e)
  | MetaClient client =>
      tv <- Get "type" ;;
      typeValue <- assert_string tv ;;
      let path := replicationPrimaryDeletePath typeValue in
      r <- Logical_Write client path None ;;
      match r.2 with
      | Some err =>
          ret (Some (Errorf "error disabling %s replication: %s"
                       [AString typeValue; AError err]))
      | None =>
          resp <- deref r.1 ;;
          if not_nil (index (Data resp) "Errors") then
            ret (Some (Errorf "error disabling %s replication: %s"
                         [AString typeValue; AValue (index (Data resp) "Errors")]))
          else
            waitForReplication fuel typeValue "disabled" path meta ;;
            ret None
      end
  end.

Definition replicationPrimaryExists (meta : Meta) : M (bool * option error) :=
  match meta with
  | MetaError e => ret (false, Some e)
  | MetaClient client =>
      tv <- Get "type" ;;
      typeValue <- assert_string tv ;;
      let path := replicationPrimaryReadPath typeValue in
      r <- Logical_Read client path ;;
      match r.2 with
      | Some err =>
          ret (true, Some (Errorf "error checking %s replication: %s"
                             [AString typeValue; AError err]))
      | None =>
          resp <- deref r.1 ;;
          if not_nil (index (Data resp) "Errors") then
            ret (true, Some (Errorf "error checking %s replication: %s"
                               [AString typeValue; AValue (index (Data resp) "Errors")]))
          else if negb (eq_string (index (Data resp) "mode") "disabled") then
            ret (true, None)
          else
            ret (false, None)
      end
  end.

(** ** Secondary configuration resource *)

Definition replicationSecondaryCreatePath (typeValue : string) : string :=
  replicationPath ++ typeValue ++ "/secondary/enable".

Definition replicationSecondaryReadPath (typeValue : string) : string :=
  replicationPath ++ typeValue ++ "/status".

Definition replicationSecondaryDeletePath (typeValue : string) : string :=
  replicationPath ++ typeValue ++ "/secondary/disable".

Definition replicationSecondaryRead (meta : Meta) : M (option error) :=
  match meta with
  | MetaError e => ret (Some e)
  | MetaClient client =>
      tv <- Get "type" ;;
      typeValue <- assert_string tv ;;
      let path := replicationSecondaryReadPath typeValue in
      r <- Logical_Read client path ;;
      match r.2 with
      | Some err =>
          deref r.1 ;;          (* the debug line prints resp.Data *)
          ret (Some err)
      | None =>
          resp <- deref r.1 ;;
          (if eq_string (index (Data resp) "mode") "disabled"
           then SetId "" else ret ()) ;;
          v <- assert_string (index (Data resp) "primary_cluster_addr") ;;
          Set_ "primary_cluster_addr" (VString v) ;;
          v <- assert_string (index (Data resp) "cluster_id") ;;
          Set_ "cluster_id" (VString v) ;;
          v <- assert_string (index (Data resp) "mode") ;;
          Set_ "mode" (VString v) ;;
          v <- assert_string (index (Data resp) "state") ;;
          Set_ "state" (VString v) ;;
          l <- assert_slice (index (Data resp) "known_primary_cluster_addrs") ;;
          Set_ "known_primary_cluster_addrs" (VList l) ;;
          l <- assert_slice (index (Data resp) "primaries") ;;
          Set_ "primaries" (VList l) ;;
          ret None
      end
  end.

Definition replicationSecondaryCreate (meta : Meta) : M (option error) :=
  match meta with
  | MetaError e => ret (Some e)
  | MetaClient client =>
      tv <- Get "type" ;;
      typeValue <- assert_string tv ;;
      let path := replicationSecondaryCreatePath typeValue in
      v <- Get "token" ;;
      replicationToken <- assert_string v ;;
      v <- Get "primary_api_addr" ;;
      primaryApiAddr <- assert_string v ;;
      v <- Get "ca_file" ;;
      caFile <- assert_string v ;;
      v <- Get "ca_path" ;;
      caPath <- assert_string v ;;
      let data : gmap string value :=
        <[ "token" := VString replicationToken ]>
        (<[ "primary_api_addr" := VString primaryApiAddr ]>
        (<[ "ca_file" := VString caFile ]>
        (<[ "ca_path" := VString caPath ]> ∅))) in
      r <- Logical_Write client path (Some data) ;;
      match r.2 with
      | Some err =>
          ret (Some (Errorf "error enabling %s replication: %s"
                       [AString typeValue; AError err]))
      | None =>
          match errors_entry r.1 with
          | Some err =>
              ret (Some (Errorf "error returned from %s primary: %s"
                           [AString typeValue; AValue err]))
          | None =>
              SetId path ;;
              replicationSecondaryRead meta
          end
      end
  end.

Definition replicationSecondaryDelete (meta : Meta) : M (option error) :=
  match meta with
  | MetaError e => ret (Some e)
  | MetaClient client =>
      tv <- Get "type" ;;
      typeValue <- assert_string tv ;;
      let path := replicationSecondaryDeletePath typeValue in
      r <- Logical_Write client path None ;;
      match r.2 with
      | Some err =>
          ret (Some (Errorf "error disabling %s replication: %s"
                       [AString typeValue; AError err]))
      | None =>
          resp <- deref r.1 ;;
          if not_nil (index (Data resp) "Errors") then
            ret (Some (Errorf "error disabling %s replication: %s"
                         [AString typeValue; AValue (index (Data resp) "Errors")]))
          else
            ret None
      end
  end.

Definition replicationSecondaryExists (meta : Meta) : M (bool * option error) :=
  match meta with
  | MetaError e => ret (false, Some e)
  | MetaClient client =>
      tv <- Get "type" ;;
      typeValue <- assert_string tv ;;
      let path := replicationSecondaryReadPath typeValue in
      r <- Logical_Read client path ;;
      match r.2 with
      | Some err =>
          ret (true, Some (Errorf "error checking %s replication: %s"
                             [AString typeValue; AError err]))
      | None =>
          resp <- deref r.1 ;;
          if not_nil (index (Data resp) "Errors") then
            ret (true, Some (Errorf "error checking %s replication: %s"
                               [AString typeValue; AValue (index (Data resp) "Errors")]))
          else if negb (eq_string (index (Data resp) "mode") "disabled") then
            ret (true, None)
          else
            ret (false, None)
      end
  end.

(** ** Secondary-token resource *)

Definition replicationTokenCreatePath (typeValue : string) : string :=
  replicationPath ++ typeValue ++ "/primary/secondary-token".

Definition replicationTokenDeletePath (typeValue : string) : string :=
  replicationPath ++ typeValue ++ "/primary/revoke-secondary".

Definition replicationTokenRead (meta : Meta) : M (option error) :=
  match meta with
  | MetaError e => ret (Some e)
  | MetaClient client =>
      tv <- Get "type" ;;
      typeValue <- assert_string tv ;;
      let path := replicationPrimaryReadPath typeValue in
      r <- Logical_Read client path ;;
      match r.2 with
      | Some err =>
          deref r.1 ;;          (* the debug line prints resp.Data *)
          ret (Some err)
      | None =>
          deref r.1 ;;          (* likewise *)
          ret None
      end
  end.

Definition replicationTokenCreate (meta : Meta) : M (option error) :=
  match meta with
  | MetaError e => ret (Some e)
  | MetaClient client =>
      tv <- Get "type" ;;
      typeValue <- assert_string tv ;;
      let path := replicationTokenCreatePath typeValue in
      iv <- Get "token_id" ;;
      id <- assert_string iv ;;
      let data : gmap string value := {[ "id" := VString id ]} in
      g <- GetOk "ttl" ;;
      data <- (if g.2 then v <- assert_string g.1 ;; ret (<[ "ttl" := VString v ]> data)
               else ret data) ;;
      g <- GetOk "secondary_public_key" ;;
      data <- (if g.2 then v <- assert_string g.1 ;;
                           ret (<[ "secondary_public_key" := VString v ]> data)
               else ret data) ;;
      r <- Logical_Write client path (Some data) ;;
      match r.2 with
      | Some err =>
          ret (Some (Errorf "error creating replication token: %s" [AError err]))
      | None =>
          match errors_entry r.1 with
          | Some error =>
              ret (Some (Errorf "error creating replication token: %s" [AValue error]))
          | None =>
              SetId id ;;
              resp <- deref r.1 ;;
              wi <- deref (WrapInfo resp) ;;
              let secondaryToken := Token wi in
              Set_ "secondary_token" (VString secondaryToken) ;;
              replicationTokenRead meta
          end
      end
  end.

Definition replicationTokenDelete (meta : Meta) : M (option error) :=
  match meta with
  | MetaError e => ret (Some e)
  | MetaClient client =>
      tv <- Get "type" ;;
      typeValue <- assert_string tv ;;
      let path := replicationTokenDeletePath typeValue in
      iv <- Get "token_id" ;;
      let data : gmap string value := {[ "id" := iv ]} in
      r <- Logical_Write client path (Some data) ;;
      match r.2 with
      | Some err =>
          ret (Some (Errorf "error revoking secondary token: %s" [AError err]))
      | None =>
          resp <- deref r.1 ;;
          if not_nil (index (Data resp) "Errors") then
            ret (Some (Errorf "error revoking secondary token: %s"
                         [AValue (index (Data resp) "Errors")]))
          else
            ret None
      end
  end.

(** The inner loop of [replicationTokenExists], over the entries of one
    secondary in the order the map is ranged over: [true] stands for the
    early [return true, nil]. *)
Fixpoint scan_entry (kvs : list (string * value)) (token_id : value) : M bool :=
  match kvs with
  | [] => ret false
  | (k, v) :: kvs' =>
      if bool_decide (k = "node_id") then
        s <- assert_string v ;;
        if eq_string token_id s then ret true
        else scan_entry kvs' token_id
      else scan_entry kvs' token_id
  end.

(** The outer loop, over the secondaries. *)
Fixpoint scan_secondaries (zs : list value) (token_id : value) : M bool :=
  match zs with
  | [] => ret false
  | z :: zs' =>
      m <- assert_map z ;;
      found <- scan_entry (map_to_list m) token_id ;;
      if found then ret true else scan_secondaries zs' token_id
  end.

(** The comparison [v.(string) == d.Get("token_id")] reads the attribute
    anew at every node_id; the read has no effect, so it is done once
    before the scan. *)
Definition replicationTokenExists (meta : Meta) : M (bool * option error) :=
  match meta with
  | MetaError e => ret (false, Some e)
  | MetaClient client =>
      tv <- Get "type" ;;
      typeValue <- assert_string tv ;;
      let path := replicationPrimaryReadPath typeValue in
      r <- Logical_Read client path ;;
      match r.2 with
      | Some err =>
          ret (true, Some (Errorf "error checking replication token: %s" [AError err]))
      | None =>
          resp <- deref r.1 ;;
          if not_nil (index (Data resp) "Errors") then
            ret (true, Some (Errorf "error checking replication token: %s"
                               [AValue (index (Data resp) "Errors")]))
          else if not_nil (index (Data resp) "secondaries") then
            secondaries <- assert_slice (index (Data resp) "secondaries") ;;
            token_id <- Get "token_id" ;;
            found <- scan_secondaries secondaries token_id ;;
            if found then ret (true, None) else ret (false, None)
          else
            ret (false, None)
      end
  end.

(** * Properties *)

#[local] Open Scope list_scope.
#[local] Open Scope nat_scope.

(** ** The convergence wait *)

(** The health request every attempt sends. *)
Definition health_event : event :=
  EvHealth "GET" "/v1/sys/health" [("standbyok", "true"); ("perfstandbyok", "true")].

(** A reply reports [state] for replication type [typeValue]: it decodes to
    an object whose field [replication_<type>_mode] is that string. *)
Definition reports (typeValue state : string) (reply : HealthReply) : Prop :=
  ∃ data, reply = Body data ∧ data !! healthQuery typeValue = Some (VString state).

(** What [k] failed attempts, each followed by a retry, leave in the trace
    under a constant delay [d]. *)
Fixpoint retry_events (d : Duration) (k : nat) : list event :=
  match k with
  | O => []
  | S k' => health_event :: EvWarn d :: EvSleep d :: retry_events d k'
  end.

(** The timer waits of a trace. *)
Definition sleeps (t : list event) : list Duration :=
  omap (λ e, match e with EvSleep d => Some d | _ => None end) t.

(** State of the policy built by [WithMaxRetries (NewConstantBackOff d) m]
    after [k] retries have been granted. *)
Definition tries (d : Duration) (m k : N) : backOffTries ConstantBackOff :=
  {| delegate := {| Interval := d |}; maxTries := m; numTries := k |}.

Lemma attempt_result_None typeValue state reply :
  attempt_result typeValue state reply = None ↔ reports typeValue state reply.
Proof.
  unfold reports. split.
  - destruct reply as [e|e|e|data]; simpl; try discriminate.
    destruct (data !! healthQuery typeValue) as [[]|] eqn:E; try discriminate.
    case_bool_decide; [|discriminate]. subst. eauto.
  - intros (data & -> & E). simpl. rewrite E.
    by rewrite bool_decide_eq_true_2.
Qed.

Lemma attempt_result_fails typeValue state reply :
  ¬ reports typeValue state reply →
  ∃ e, attempt_result typeValue state reply = Some e.
Proof.
  intros H. destruct (attempt_result typeValue state reply) eqn:E; [eauto|].
  by apply attempt_result_None in E.
Qed.

Lemma health_requests_app t1 t2 :
  health_requests (t1 ++ t2) = health_requests t1 + health_requests t2.
Proof. unfold health_requests. by rewrite filter_app, length_app. Qed.

Lemma health_requests_retry_events d k :
  health_requests (retry_events d k) = k.
Proof.
  induction k as [|k IH]; [reflexivity|].
  change (retry_events d (S k))
    with ([health_event; EvWarn d; EvSleep d] ++ retry_events d k).
  rewrite health_requests_app, IH. reflexivity.
Qed.

Lemma sleeps_retry_events d k :
  sleeps (retry_events d k ++ [health_event]) = replicate k d.
Proof.
  induction k as [|k IH]; [reflexivity|].
  change (sleeps (retry_events d (S k) ++ [health_event]))
    with (d :: sleeps (retry_events d k ++ [health_event])).
  by rewrite IH.
Qed.

Lemma retryRead_run client typeValue state w :
  retryRead client typeValue state w =
  (Done (attempt_result typeValue state (RawRequest client (health_requests (trace w)))),
   {| rd := rd w; trace := trace w ++ [health_event] |}).
Proof. reflexivity. Qed.

Section RetryLoop.
Variables (client : Client) (typeValue state : string) (d : Duration).
Hypothesis d_not_Stop : d ≠ Stop.

Let operation := retryRead client typeValue state.
Let notify : error → Duration → M unit := λ _ duration, emit (EvWarn duration).

(** One turn of the loop under the bounded constant policy. *)
Lemma retry_loop_step (m k : N) (fuel : nat) (w : World) :
  retry_loop (S fuel) operation (tries d m k) notify w =
  let w0 := {| rd := rd w; trace := trace w ++ [health_event] |} in
  match attempt_result typeValue state
          (RawRequest client (health_requests (trace w))) with
  | None => (Done None, w0)
  | Some e =>
      if ((m =? 0) || (m <=? k))%N then (Done (Some e), w0)
      else retry_loop fuel operation (tries d m (k + 1)) notify
             {| rd := rd w;
                trace := trace w ++ [health_event; EvWarn d; EvSleep d] |}
  end.
Proof using d_not_Stop.
  cbn [retry_loop]. unfold bind at 1. unfold operation at 1.
  rewrite retryRead_run.
  destruct (attempt_result _ _ _) as [e|]; [|reflexivity].
  cbn [NextBackOff backOffTries_BackOff tries maxTries numTries delegate].
  destruct (m =? 0)%N; [reflexivity|].
  destruct (m <=? k)%N; [reflexivity|].
  cbn [NextBackOff ConstantBackOff_BackOff Interval orb].
  destruct (Z.eqb_spec d Stop) as [|_]; [done|].
  unfold bind, notify, emit. cbn [rd trace].
  by rewrite <- !app_assoc.
Qed.

Lemma health_requests_after_retry (w : World) :
  health_requests (trace w ++ [health_event; EvWarn d; EvSleep d]) =
  S (health_requests (trace w)).
Proof.
  rewrite health_requests_app.
  change (health_requests [health_event; EvWarn d; EvSleep d]) with 1. lia.
Qed.

(** All attempts the policy allows fail: the loop gives up with the
    error of the last one, after [r + 1] requests when [r] retries were
    left. *)
Lemma retry_loop_exhausted (r : nat) :
  ∀ (m k : N) (fuel : nat) (w : World),
    (k + N.of_nat r = m)%N →
    r < fuel →
    (∀ j, j ≤ r →
       ¬ reports typeValue state (RawRequest client (health_requests (trace w) + j))) →
    ∃ last,
      attempt_result typeValue state
        (RawRequest client (health_requests (trace w) + r)) = Some last ∧
      retry_loop fuel operation (tries d m k) notify w =
      (Done (Some last),
       {| rd := rd w; trace := trace w ++ retry_events d r ++ [health_event] |}).
Proof using d_not_Stop.
  induction r as [|r IH]; intros m k fuel w Hm Hfuel Hfail;
    (destruct fuel as [|fuel]; [lia|]);
    destruct (attempt_result_fails _ _ _ (Hfail 0 ltac:(lia))) as [e He];
    rewrite Nat.add_0_r in He; rewrite retry_loop_step, He; cbn zeta.
  - exists e. rewrite Nat.add_0_r. split; [done|].
    replace ((m =? 0) || (m <=? k))%N with true; [done|].
    symmetry. apply orb_true_iff. right. apply N.leb_le. lia.
  - replace ((m =? 0) || (m <=? k))%N with false.
    2:{ symmetry. apply orb_false_iff. split; [apply N.eqb_neq|apply N.leb_gt]; lia. }
    set (w1 := {| rd := rd w;
                  trace := trace w ++ [health_event; EvWarn d; EvSleep d] |}).
    assert (Hw1 : health_requests (trace w1) = S (health_requests (trace w)))
      by apply health_requests_after_retry.
    destruct (IH m (k + 1)%N fuel w1) as (last & Hlast & Hrun); [lia|lia| |].
    + intros j Hj. rewrite Hw1.
      replace (S (health_requests (trace w)) + j)
        with (health_requests (trace w) + S j) by lia.
      apply Hfail. lia.
    + exists last. split.
      * rewrite <- Hlast, Hw1. do 2 f_equal. lia.
      * rewrite Hrun. subst w1. cbn [rd trace retry_events].
        by rewrite <- !app_assoc.
Qed.

(** The attempt with index [n] (counted from this point) is the first
    one that reports the state and a retry is still available for each
    failure before it: the loop returns nil right after that request. *)
Lemma retry_loop_converges (n : nat) :
  ∀ (m k : N) (fuel : nat) (w : World),
    (k + N.of_nat n ≤ m)%N →
    n < fuel →
    (∀ j, j < n →
       ¬ reports typeValue state (RawRequest client (health_requests (trace w) + j))) →
    reports typeValue state (RawRequest client (health_requests (trace w) + n)) →
    retry_loop fuel operation (tries d m k) notify w =
    (Done None,
     {| rd := rd w; trace := trace w ++ retry_events d n ++ [health_event] |}).
Proof using d_not_Stop.
  induction n as [|n IH]; intros m k fuel w Hm Hfuel Hfail Hok;
    (destruct fuel as [|fuel]; [lia|]); rewrite retry_loop_step; cbn zeta.
  - rewrite Nat.add_0_r in Hok. apply attempt_result_None in Hok.
    by rewrite Hok.
  - destruct (attempt_result_fails _ _ _ (Hfail 0 ltac:(lia))) as [e He].
    rewrite Nat.add_0_r in He. rewrite He.
    replace ((m =? 0) || (m <=? k))%N with false.
    2:{ symmetry. apply orb_false_iff. split; [apply N.eqb_neq|apply N.leb_gt]; lia. }
    set (w1 := {| rd := rd w;
                  trace := trace w ++ [health_event; EvWarn d; EvSleep d] |}).
    assert (Hw1 : health_requests (trace w1) = S (health_requests (trace w)))
      by apply health_requests_after_retry.
    rewrite (IH m (k + 1)%N fuel w1); [|lia|lia| |].
    + subst w1. cbn [rd trace retry_events]. by rewrite <- !app_assoc.
    + intros j Hj. rewrite Hw1.
      replace (S (health_requests (trace w)) + j)
        with (health_requests (trace w) + S j) by lia.
      apply Hfail. lia.
    + rewrite Hw1.
      replace (S (health_requests (trace w)) + n)
        with (health_requests (trace w) + S n) by lia.
      done.
Qed.
End RetryLoop.

(** The error [waitForReplication] returns once the policy stops: the path
    and the error of the last attempt. *)
Definition convergence_error (path : string) (last : error) : error :=
  Errorf "error waiting replication at %s: %v" [AString path; AError last].

(** The delay of the constant policy of [waitForReplication]. *)
Definition interval : Duration := (1 * Second)%Z.

(** [waitForReplication] with a client, in terms of the retry loop under
    the policy state right after [Reset]. *)
Lemma waitForReplication_run fuel typeValue state path c w :
  waitForReplication fuel typeValue state path (MetaClient c) w =
  match retry_loop fuel (retryRead c typeValue (target_state state))
          (tries interval 10 0) (λ _ duration, emit (EvWarn duration)) w with
  | (Done (Some e), w') => (Done (Some (convergence_error path e)), w')
  | (Done None, w') => (Done None, w')
  | (Panicked p, w') => (Panicked p, w')
  | (OutOfFuel, w') => (OutOfFuel, w')
  end.
Proof.
  unfold waitForReplication, RetryNotify, bind.
  change (Reset (WithMaxRetries (NewConstantBackOff (1 * Second)%Z) 10))
    with (tries interval 10 0).
  by destruct (retry_loop _ _ _ _ w) as [[[e|]|p|] w'].
Qed.

Lemma interval_not_Stop : interval ≠ Stop.
Proof. done. Qed.

(** A client whose health endpoint always answers with an empty object. *)
Definition silent_client : Client := {|
  Write := λ _ _, (None, None);
  Read := λ _, (None, None);
  RawRequest := λ _, Body ∅
|}.

(** For the concrete records below: an SDK that takes a slice when each
    of its elements has the kind the schema gives the elements of the
    attribute, objects for secondaries and primaries and strings for the
    two other sets. *)
Definition kind_checked (key : string) (v : value) : bool :=
  match v with
  | VList l =>
      if bool_decide (key = "secondaries" ∨ key = "primaries")
      then forallb (λ z, match z with VMap _ => true | _ => false end) l
      else forallb (λ z, match z with VString _ => true | _ => false end) l
  | _ => false
  end.

Definition blank : ResourceData :=
  {| Id := ""; attrs := ∅; accepts := kind_checked |}.

Lemma silent_client_never_reports typeValue state n :
  ¬ reports typeValue state (RawRequest silent_client n).
Proof. intros (data & [= <-] & H). by rewrite lookup_empty in H. Qed.

(** C1, as the code has it: when the health endpoint never reports the
    target state, [waitForReplication] makes eleven attempts (the first one
    and the ten retries the policy grants), waits the constant interval of
    one second after each of the first ten, and then returns the error
    wrapping the path and the error of the eleventh attempt. *)
Theorem waitForReplication_exhausts_retries
    (c : Client) (typeValue state path : string) (d : ResourceData) (fuel : nat) :
  (∀ n, ¬ reports typeValue (target_state state) (RawRequest c n)) →
  10 < fuel →
  ∃ last,
    attempt_result typeValue (target_state state) (RawRequest c 10) = Some last ∧
    waitForReplication fuel typeValue state path (MetaClient c) (init d) =
      (Done (Some (convergence_error path last)),
       {| rd := d; trace := retry_events Second 10 ++ [health_event] |}) ∧
    health_requests (retry_events Second 10 ++ [health_event]) = 11 ∧
    sleeps (retry_events Second 10 ++ [health_event]) = replicate 10 Second.
Proof.
  intros Hnever Hfuel.
  destruct (retry_loop_exhausted c typeValue (target_state state) interval
              interval_not_Stop 10 10%N 0%N fuel (init d))
    as (last & Hlast & Hrun); [done|done|by intros; apply Hnever|].
  exists last. split; [exact Hlast|]. split; [|split].
  - rewrite waitForReplication_run, Hrun. reflexivity.
  - reflexivity.
  - apply sleeps_retry_events.
Qed.

Lemma waitForReplication_exhausts_retries_witness :
  ∃ last,
    attempt_result "dr" (target_state "running") (RawRequest silent_client 10) = Some last ∧
    waitForReplication 11 "dr" "running" "/sys/replication/dr/primary/enable"
      (MetaClient silent_client) (init blank) =
      (Done (Some (convergence_error "/sys/replication/dr/primary/enable" last)),
       {| rd := blank; trace := retry_events Second 10 ++ [health_event] |}) ∧
    health_requests (retry_events Second 10 ++ [health_event]) = 11 ∧
    sleeps (retry_events Second 10 ++ [health_event]) = replicate 10 Second.
Proof.
  apply (waitForReplication_exhausts_retries silent_client "dr" "running"
           "/sys/replication/dr/primary/enable" blank 11).
  - intros n. apply silent_client_never_reports.
  - lia.
Defined.

(** C1, as the specification words it (ten attempts in total), fails: on an
    endpoint that never reports the target state the wait has not returned
    after ten attempts, and when it returns it has sent eleven requests. *)
Lemma waitForReplication_ten_attempts_counterexample :
  (∀ n, ¬ reports "dr" (target_state "running") (RawRequest silent_client n)) ∧
  fst (waitForReplication 10 "dr" "running" "/sys/replication/dr/primary/enable"
         (MetaClient silent_client) (init blank)) = OutOfFuel ∧
  fst (waitForReplication 11 "dr" "running" "/sys/replication/dr/primary/enable"
         (MetaClient silent_client) (init blank)) =
    Done (Some (convergence_error "/sys/replication/dr/primary/enable"
                  (Errorf "error waiting for replication" []))) ∧
  health_requests
    (trace (snd (waitForReplication 11 "dr" "running" "/sys/replication/dr/primary/enable"
                   (MetaClient silent_client) (init blank)))) ≠ 10.
Proof.
  split; [intros n; apply silent_client_never_reports|].
  split; [vm_compute; reflexivity|].
  split; [vm_compute; reflexivity|].
  vm_compute. discriminate.
Qed.

(** C6: the attempt that first finds the health field
    [replication_<type>_mode] holding the target state (with ["running"]
    read as ["primary"]) ends the wait with success; the trace ends with
    that request, so none follows it. Attempts are numbered from 0; the
    policy allows the attempts 0 to 10. *)
Theorem waitForReplication_stops_at_first_match
    (c : Client) (typeValue state path : string) (d : ResourceData) (fuel n : nat) :
  n ≤ 10 →
  n < fuel →
  (∀ j, j < n → ¬ reports typeValue (target_state state) (RawRequest c j)) →
  reports typeValue (target_state state) (RawRequest c n) →
  waitForReplication fuel typeValue state path (MetaClient c) (init d) =
    (Done None, {| rd := d; trace := retry_events Second n ++ [health_event] |}) ∧
  health_requests (retry_events Second n ++ [health_event]) = S n ∧
  last (retry_events Second n ++ [health_event]) = Some health_event ∧
  target_state "running" = "primary" ∧
  healthQuery typeValue = ("replication_" ++ typeValue ++ "_mode")%string.
Proof.
  intros Hn Hfuel Hfail Hok.
  split; [|split; [|split; [|split]]].
  - rewrite waitForReplication_run.
    rewrite (retry_loop_converges c typeValue (target_state state) interval
               interval_not_Stop n 10%N 0%N fuel (init d)); [done|lia|done|done|done].
  - rewrite health_requests_app, health_requests_retry_events.
    change (health_requests [health_event]) with 1. lia.
  - apply last_snoc.
  - reflexivity.
  - reflexivity.
Qed.

(** A client that reports mode primary from its third health answer on. *)
Definition late_client : Client := {|
  Write := λ _ _, (None, None);
  Read := λ _, (None, None);
  RawRequest := λ n,
    if n <? 2 then Body {[ "replication_dr_mode" := VString "secondary" ]}
    else Body {[ "replication_dr_mode" := VString "primary" ]}
|}.

Lemma waitForReplication_stops_at_first_match_witness :
  waitForReplication 11 "dr" "running" "/sys/replication/dr/primary/enable"
    (MetaClient late_client) (init blank) =
    (Done None, {| rd := blank; trace := retry_events Second 2 ++ [health_event] |}) ∧
  health_requests (retry_events Second 2 ++ [health_event]) = 3 ∧
  last (retry_events Second 2 ++ [health_event]) = Some health_event ∧
  target_state "running" = "primary" ∧
  healthQuery "dr" = ("replication_" ++ "dr" ++ "_mode")%string.
Proof.
  apply (waitForReplication_stops_at_first_match late_client "dr" "running"
           "/sys/replication/dr/primary/enable" blank 11 2).
  - lia.
  - lia.
  - intros j Hj Hr. apply attempt_result_None in Hr.
    destruct j as [|[|j]]; [vm_compute in Hr; discriminate..|lia].
  - apply attempt_result_None. vm_compute. reflexivity.
Defined.

(** ** Invariants of runs *)

(** [m] leaves the observation [φ] of the world as it found it. *)
Definition preserves {X A} (φ : World → X) (m : M A) : Prop :=
  ∀ w, φ (snd (m w)) = φ w.

Section Preserves.
Context {X : Type} (φ : World → X).

Lemma preserves_ret {A} (a : A) : preserves φ (ret a).
Proof. by intros w. Qed.

Lemma preserves_raise {A} (p : panic) : preserves φ (raise (A:=A) p).
Proof. by intros w. Qed.

Lemma preserves_out_of_fuel {A} : preserves φ (out_of_fuel (A:=A)).
Proof. by intros w. Qed.

Lemma preserves_bind {A B} (m : M A) (k : A → M B) :
  preserves φ m → (∀ a, preserves φ (k a)) → preserves φ (bind m k).
Proof.
  intros Hm Hk w. unfold bind. specialize (Hm w).
  destruct (m w) as [[a|p|] w']; simpl in *; [|done..].
  by rewrite Hk.
Qed.

Lemma preserves_assert_string v : preserves φ (assert_string v).
Proof. by destruct v. Qed.

Lemma preserves_assert_slice v : preserves φ (assert_slice v).
Proof. by destruct v. Qed.

Lemma preserves_assert_map v : preserves φ (assert_map v).
Proof. by destruct v. Qed.

Lemma preserves_deref {A} (p : option A) : preserves φ (deref p).
Proof. by destruct p. Qed.

Lemma preserves_Get key : preserves φ (Get key).
Proof. by intros w. Qed.

Lemma preserves_GetOk key : preserves φ (GetOk key).
Proof. by intros w. Qed.
End Preserves.

(** The observations used below. *)

(** The logical writes of a trace, with their payloads. *)
Definition writes (t : list event) : list (string * payload) :=
  omap (λ e, match e with EvWrite p data => Some (p, data) | _ => None end) t.

(** The values stored under attribute [key]. *)
Definition stores (key : string) (t : list event) : list value :=
  omap (λ e, match e with
             | EvSet k v => if bool_decide (k = key) then Some v else None
             | _ => None
             end) t.

(** The identifiers handed to [SetId]. *)
Definition set_ids (t : list event) : list string :=
  omap (λ e, match e with EvSetId id => Some id | _ => None end) t.

Lemma omap_snoc {A B} (f : A → option B) (l : list A) (x : A) :
  omap f (l ++ [x]) = omap f l ++ match f x with Some y => [y] | None => [] end.
Proof. rewrite omap_app. simpl. by destruct (f x). Qed.

(** Steps that add one event which the observation does not select. *)
Ltac quiet_step :=
  intros ?; unfold writes, stores, set_ids; cbn;
  rewrite ?omap_snoc; cbn; try case_bool_decide; rewrite ?app_nil_r; try done;
  match goal with
  | |- context [accepts ?d ?k ?v] => by destruct (accepts d k v)
  end.

Ltac preserves_step :=
  first
    [ apply preserves_ret | apply preserves_raise | apply preserves_out_of_fuel
    | apply preserves_assert_string | apply preserves_assert_slice
    | apply preserves_assert_map | apply preserves_deref
    | apply preserves_Get | apply preserves_GetOk
    | apply preserves_bind; [|intros ?]
    | match goal with
      | |- preserves _ (match ?x with _ => _ end) => destruct x
      | |- preserves _ (if ?b then _ else _) => destruct b
      end ].

Lemma retry_loop_quiet {X B} `{BackOff B} (φ : World → X) fuel operation (b : B) notify :
  preserves φ operation →
  (∀ e d, preserves φ (notify e d)) →
  (∀ d, preserves φ (emit (EvSleep d))) →
  preserves φ (retry_loop fuel operation b notify).
Proof.
  intros Hop Hn Hs. revert b.
  induction fuel as [|fuel IH]; intros b; cbn [retry_loop]; [apply preserves_out_of_fuel|].
  apply preserves_bind; [done|]. intros [err|]; [|apply preserves_ret].
  destruct (NextBackOff b) as [next b'].
  destruct (next =? Stop)%Z; [apply preserves_ret|].
  apply preserves_bind; [done|]. intros _.
  apply preserves_bind; [done|]. intros _. apply IH.
Qed.

Lemma waitForReplication_writes fuel typeValue state path meta :
  preserves (λ w, writes (trace w)) (waitForReplication fuel typeValue state path meta).
Proof.
  destruct meta as [c|e]; [|apply preserves_ret].
  unfold waitForReplication, RetryNotify.
  apply preserves_bind; [|intros [?|]; apply preserves_ret].
  apply retry_loop_quiet; [|intros; quiet_step|intros; quiet_step].
  unfold retryRead. apply preserves_bind; [quiet_step|intros; apply preserves_ret].
Qed.

Lemma waitForReplication_rd fuel typeValue state path meta :
  preserves rd (waitForReplication fuel typeValue state path meta).
Proof.
  destruct meta as [c|e]; [|apply preserves_ret].
  unfold waitForReplication, RetryNotify.
  apply preserves_bind; [|intros [?|]; apply preserves_ret].
  apply retry_loop_quiet; [|by intros|by intros].
  unfold retryRead. apply preserves_bind; [by intros|intros; apply preserves_ret].
Qed.

Ltac preserves_auto :=
  repeat first
    [ preserves_step
    | progress unfold Logical_Read, Logical_Write
    | solve [quiet_step] ].

Lemma replicationPrimaryRead_writes meta :
  preserves (λ w, writes (trace w)) (replicationPrimaryRead meta).
Proof. unfold replicationPrimaryRead. preserves_auto. Qed.

Lemma replicationSecondaryRead_writes meta :
  preserves (λ w, writes (trace w)) (replicationSecondaryRead meta).
Proof. unfold replicationSecondaryRead. preserves_auto. Qed.

Lemma replicationTokenRead_writes meta :
  preserves (λ w, writes (trace w)) (replicationTokenRead meta).
Proof. unfold replicationTokenRead. preserves_auto. Qed.

Lemma replicationTokenRead_stores key meta :
  preserves (λ w, stores key (trace w)) (replicationTokenRead meta).
Proof. unfold replicationTokenRead. preserves_auto. Qed.

Lemma replicationTokenRead_rd meta :
  preserves rd (replicationTokenRead meta).
Proof. unfold replicationTokenRead. preserves_auto. Qed.

(** ** Write payloads *)

Arguments get_string : simpl never.
Arguments replicationPrimaryCreatePath : simpl never.
Arguments replicationPrimaryReadPath : simpl never.
Arguments replicationPrimaryDeletePath : simpl never.
Arguments replicationSecondaryCreatePath : simpl never.
Arguments replicationSecondaryReadPath : simpl never.
Arguments replicationSecondaryDeletePath : simpl never.
Arguments replicationTokenCreatePath : simpl never.
Arguments replicationTokenDeletePath : simpl never.
Arguments replicationPrimaryRead : simpl never.
Arguments replicationSecondaryRead : simpl never.
Arguments replicationTokenRead : simpl never.
Arguments waitForReplication : simpl never.

(** The payload [replicationSecondaryCreate] builds from the resource data. *)
Definition secondary_payload (d : ResourceData) : gmap string value :=
  <[ "token" := VString (get_string d "token") ]>
  (<[ "primary_api_addr" := VString (get_string d "primary_api_addr") ]>
  (<[ "ca_file" := VString (get_string d "ca_file") ]>
  (<[ "ca_path" := VString (get_string d "ca_path") ]> ∅))).

(** C7: enabling a secondary issues one logical write, to the enable path,
    whose payload has exactly the keys token, primary_api_addr, ca_file and
    ca_path, each bound to the string of the attribute of that name (the
    empty string when the attribute is unset). *)
Theorem replicationSecondaryCreate_payload (c : Client) (d : ResourceData) :
  ∃ data : gmap string value,
    writes (trace (snd (replicationSecondaryCreate (MetaClient c) (init d)))) =
      [(replicationSecondaryCreatePath (get_string d "type"), Some data)] ∧
    dom data = {[ "token"; "primary_api_addr"; "ca_file"; "ca_path" ]} ∧
    data !! "token" = Some (VString (get_string d "token")) ∧
    data !! "primary_api_addr" = Some (VString (get_string d "primary_api_addr")) ∧
    data !! "ca_file" = Some (VString (get_string d "ca_file")) ∧
    data !! "ca_path" = Some (VString (get_string d "ca_path")) ∧
    (attrs d !! "primary_api_addr" = None →
     data !! "primary_api_addr" = Some (VString "")).
Proof.
  exists (secondary_payload d). split; [|split].
  - unfold replicationSecondaryCreate. cbn -[insert].
    fold (secondary_payload d).
    destruct (Write c _ _) as [resp [err|]]; cbn; [done|].
    destruct (errors_entry resp) as [v|]; cbn; [done|].
    by rewrite (replicationSecondaryRead_writes (MetaClient c)).
  - unfold secondary_payload. rewrite !dom_insert_L, dom_empty_L. set_solver.
  - unfold secondary_payload. repeat split; try by simplify_map_eq.
    intros Hnone. simplify_map_eq. unfold get_string. by rewrite Hnone.
Qed.

(** The field [k] of a write payload, if the payload has it. *)
Definition payload_field (p : payload) (k : string) : option value :=
  data ← p; data !! k.

(** C8: enabling a primary issues one logical write, to the enable path.
    With an empty primary_cluster_addr the payload is the nil map, so the
    field is not sent; otherwise the payload is the one-field object
    holding the address as given. *)
Theorem replicationPrimaryCreate_payload (c : Client) (d : ResourceData) (fuel : nat) :
  ∃ data : payload,
    writes (trace (snd (replicationPrimaryCreate fuel (MetaClient c) (init d)))) =
      [(replicationPrimaryCreatePath (get_string d "type"), data)] ∧
    (get_string d "primary_cluster_addr" = "" →
     data = None ∧ payload_field data "primary_cluster_addr" = None) ∧
    (get_string d "primary_cluster_addr" ≠ "" →
     data = Some {[ "primary_cluster_addr" :=
                      VString (get_string d "primary_cluster_addr") ]} ∧
     payload_field data "primary_cluster_addr" =
       Some (VString (get_string d "primary_cluster_addr"))).
Proof.
  set (addr := get_string d "primary_cluster_addr").
  exists (if negb (bool_decide (addr = ""))
          then Some {[ "primary_cluster_addr" := VString addr ]} else None).
  split; [|split].
  - unfold replicationPrimaryCreate. cbn -[singletonM]. fold addr.
    destruct (Write c _ _) as [resp [err|]]; cbn -[singletonM]; [done|].
    destruct (errors_entry resp) as [v|]; cbn -[singletonM]; [done|].
    unfold bind at 1.
    pose proof (waitForReplication_writes fuel (get_string d "type") "running"
                  (replicationPrimaryCreatePath (get_string d "type")) (MetaClient c)) as Hw.
    match goal with |- context [waitForReplication ?f ?t ?s ?p ?m ?w] =>
      specialize (Hw w); destruct (waitForReplication f t s p m w) as [[r|p'|] w']
    end; cbn [snd] in *; [|done..].
    by rewrite (replicationPrimaryRead_writes (MetaClient c)).
  - intros ->. by rewrite bool_decide_eq_true_2.
  - intros Hne. rewrite bool_decide_eq_false_2 by done. split; [done|].
    cbn. by rewrite lookup_singleton_eq.
Qed.

(** The payload [replicationTokenCreate] builds from the resource data: the
    identifier, then ttl and secondary_public_key when [GetOk] finds them. *)
Definition token_payload (d : ResourceData) : gmap string value :=
  let data : gmap string value := {[ "id" := VString (get_string d "token_id") ]} in
  let data :=
    if negb (bool_decide (get_string d "ttl" = ""))
    then <[ "ttl" := VString (get_string d "ttl") ]> data else data in
  if negb (bool_decide (get_string d "secondary_public_key" = ""))
  then <[ "secondary_public_key" := VString (get_string d "secondary_public_key") ]> data
  else data.

(** C9: a token-issue call that returns nil has made one logical write, to
    the token-issue path, with the payload [token_payload]; the answer to
    that write carries a wrapping envelope, and the attribute
    secondary_token was stored once, with the token of that envelope,
    whatever the data of the answer holds. *)
Theorem replicationTokenCreate_success (meta : Meta) (d : ResourceData) :
  fst (replicationTokenCreate meta (init d)) = Done None →
  ∃ c resp wi,
    let w' := snd (replicationTokenCreate meta (init d)) in
    let path := replicationTokenCreatePath (get_string d "type") in
    meta = MetaClient c ∧
    writes (trace w') = [(path, Some (token_payload d))] ∧
    Write c path (Some (token_payload d)) = (Some resp, None) ∧
    WrapInfo resp = Some wi ∧
    stores "secondary_token" (trace w') = [VString (Token wi)] ∧
    attrs (rd w') !! "secondary_token" = Some (VString (Token wi)) ∧
    Id (rd w') = get_string d "token_id".
Proof.
  destruct meta as [c|e]; [|discriminate].
  unfold replicationTokenCreate. cbn -[insert singletonM].
  unfold token_payload.
  destruct (negb (bool_decide (get_string d "ttl" = "")));
    cbn -[insert singletonM];
    destruct (negb (bool_decide (get_string d "secondary_public_key" = "")));
    cbn -[insert singletonM];
    (destruct (Write c _ _) as [resp [err|]] eqn:HW; cbn -[insert singletonM];
     [discriminate|];
     destruct resp as [resp|]; cbn -[insert singletonM];
     [|discriminate];
     destruct (Data resp !! "Errors") as [v|]; cbn -[insert singletonM];
     [discriminate|];
     destruct (WrapInfo resp) as [wi|] eqn:HWI; cbn -[insert singletonM];
     [|discriminate];
     intros Hok; exists c, resp, wi;
     rewrite (replicationTokenRead_writes (MetaClient c)),
       (replicationTokenRead_stores "secondary_token" (MetaClient c)),
       (replicationTokenRead_rd (MetaClient c));
     cbn -[insert singletonM]; rewrite lookup_insert_eq; done).
Qed.

(** The scenario of the specification: a token for type performance,
    identifier sec-1, ttl 30m. The answer to the write carries the token in
    its wrapping envelope and a decoy under the key token of its data. *)
Definition token_request : ResourceData := {|
  Id := "";
  attrs := {[ "type" := VString "performance";
              "token_id" := VString "sec-1";
              "ttl" := VString "30m" ]};
  accepts := kind_checked
|}.

Definition issuing_client : Client := {|
  Write := λ _ _,
    (Some {| Data := {[ "token" := VString "decoy" ]};
             WrapInfo := Some {| Token := "wrapped-secret" |} |}, None);
  Read := λ _, (Some {| Data := ∅; WrapInfo := None |}, None);
  RawRequest := λ _, Body ∅
|}.

Lemma replicationTokenCreate_success_witness :
  ∃ c resp wi,
    let w' := snd (replicationTokenCreate (MetaClient issuing_client) (init token_request)) in
    let path := replicationTokenCreatePath (get_string token_request "type") in
    MetaClient issuing_client = MetaClient c ∧
    writes (trace w') = [(path, Some (token_payload token_request))] ∧
    Write c path (Some (token_payload token_request)) = (Some resp, None) ∧
    WrapInfo resp = Some wi ∧
    stores "secondary_token" (trace w') = [VString (Token wi)] ∧
    attrs (rd w') !! "secondary_token" = Some (VString (Token wi)) ∧
    Id (rd w') = get_string token_request "token_id".
Proof.
  apply (replicationTokenCreate_success (MetaClient issuing_client) token_request).
  vm_compute. reflexivity.
Defined.

Example token_scenario :
  let w' := snd (replicationTokenCreate (MetaClient issuing_client) (init token_request)) in
  writes (trace w') =
    [("/sys/replication/performance/primary/secondary-token",
      Some {[ "id" := VString "sec-1"; "ttl" := VString "30m" ]})] ∧
  stores "secondary_token" (trace w') = [VString "wrapped-secret"].
Proof. vm_compute. split; reflexivity. Qed.

(** ** Convergence failures at the call sites *)

(** Among the first [bound + 1] answers of a sequence, either none has the
    decidable property [P] or there is a first one that has it. *)
Lemma first_match_or_none (P : nat → Prop) (dec : ∀ n, {P n} + {¬ P n}) (bound : nat) :
  (∀ j, j ≤ bound → ¬ P j) ∨ (∃ n, n ≤ bound ∧ P n ∧ ∀ j, j < n → ¬ P j).
Proof.
  induction bound as [|bound [Hnone|(n & Hn & HP & Hfirst)]].
  - destruct (dec 0) as [H0|H0].
    + right. exists 0. split; [lia|]. split; [done|]. intros j Hj. lia.
    + left. intros j Hj. by replace j with 0 by lia.
  - destruct (dec (S bound)) as [HS|HS].
    + right. exists (S bound). split; [lia|]. split; [done|].
      intros j Hj. apply Hnone. lia.
    + left. intros j Hj. destruct (decide (j = S bound)) as [->|]; [done|].
      apply Hnone. lia.
  - right. exists n. split; [lia|]. by split.
Qed.

Lemma reports_dec typeValue state reply :
  {reports typeValue state reply} + {¬ reports typeValue state reply}.
Proof.
  destruct (attempt_result typeValue state reply) as [e|] eqn:E.
  - right. intros H. apply attempt_result_None in H. congruence.
  - left. by apply attempt_result_None.
Qed.

(** With fuel for eleven attempts the wait always returns, and it leaves
    the resource data alone. *)
Lemma waitForReplication_returns fuel typeValue state path meta w :
  10 < fuel →
  ∃ r w', waitForReplication fuel typeValue state path meta w = (Done r, w') ∧
          rd w' = rd w.
Proof.
  intros Hfuel.
  destruct meta as [c|e]; [|by exists (Some e), w].
  rewrite waitForReplication_run.
  destruct (first_match_or_none
              (λ j, reports typeValue (target_state state)
                      (RawRequest c (health_requests (trace w) + j)))
              (λ j, reports_dec _ _ _) 10) as [Hnone|(n & Hn & Hok & Hfirst)].
  - destruct (retry_loop_exhausted c typeValue (target_state state) interval
                interval_not_Stop 10 10%N 0%N fuel w)
      as (last & _ & Hrun); [done|done|done|].
    rewrite Hrun. eauto.
  - rewrite (retry_loop_converges c typeValue (target_state state) interval
               interval_not_Stop n 10%N 0%N fuel w); [eauto|lia|lia|done|done].
Qed.

(** The world in which [replicationPrimaryCreate] starts its wait. *)
Definition enabled_world (d : ResourceData) : World :=
  let path := replicationPrimaryCreatePath (get_string d "type") in
  {| rd := {| Id := path; attrs := attrs d; accepts := accepts d |};
     trace := [EvWrite path
                 (if negb (bool_decide (get_string d "primary_cluster_addr" = ""))
                  then Some {[ "primary_cluster_addr" :=
                                 VString (get_string d "primary_cluster_addr") ]}
                  else None);
               EvSetId path] |}.

(** C2, as the code has it: [replicationPrimaryCreate] drops what the wait
    returns. When the write succeeded and the health endpoint never reports
    primary, the wait ends with its convergence error, and the call goes on
    to [replicationPrimaryRead] and returns whatever that read returns.
    [replicationPrimaryDelete] drops the result of its wait in the same
    way: once its write succeeded it returns nil. *)
Theorem replicationPrimaryCreate_drops_wait_error
    (c : Client) (d : ResourceData) (fuel : nat) :
  let typeValue := get_string d "type" in
  let path := replicationPrimaryCreatePath typeValue in
  let data : payload :=
    if negb (bool_decide (get_string d "primary_cluster_addr" = ""))
    then Some {[ "primary_cluster_addr" := VString (get_string d "primary_cluster_addr") ]}
    else None in
  (Write c path data).2 = None →
  errors_entry (Write c path data).1 = None →
  (∀ n, ¬ reports typeValue "primary" (RawRequest c n)) →
  10 < fuel →
  (∃ last w1,
     waitForReplication fuel typeValue "running" path (MetaClient c) (enabled_world d) =
       (Done (Some (convergence_error path last)), w1) ∧
     health_requests (trace w1) = 11 ∧
     replicationPrimaryCreate fuel (MetaClient c) (init d) =
       replicationPrimaryRead (MetaClient c) w1) ∧
  (∀ resp,
     Write c (replicationPrimaryDeletePath typeValue) None = (Some resp, None) →
     not_nil (index (Data resp) "Errors") = false →
     fst (replicationPrimaryDelete fuel (MetaClient c) (init d)) = Done None).
Proof.
  intros typeValue path data HW HE Hnever Hfuel. split.
  - destruct (retry_loop_exhausted c typeValue (target_state "running") interval
                interval_not_Stop 10 10%N 0%N fuel (enabled_world d))
      as (last & _ & Hrun); [done|done|by intros; apply Hnever|].
    exists last. eexists. split; [|split].
    + rewrite waitForReplication_run, Hrun. reflexivity.
    + reflexivity.
    + unfold replicationPrimaryCreate. cbn -[singletonM].
      fold typeValue path data. rewrite HW, HE. cbn -[singletonM].
      unfold bind at 1.
      change {| rd := {| Id := path; attrs := attrs d; accepts := accepts d |};
                trace := [EvWrite path data; EvSetId path] |}
        with (enabled_world d).
      rewrite waitForReplication_run, Hrun. reflexivity.
  - intros resp HWd Hnil.
    unfold replicationPrimaryDelete. cbn. fold typeValue. rewrite HWd. cbn.
    rewrite Hnil. unfold bind.
    match goal with |- context [waitForReplication ?f ?t ?s ?p ?m ?w] =>
      destruct (waitForReplication_returns f t s p m w Hfuel) as (r & w' & -> & _)
    end.
    reflexivity.
Qed.

(** A request to enable dr replication as primary at 10.0.0.1:8201. *)
Definition dr_request : ResourceData := {|
  Id := "";
  attrs := {[ "type" := VString "dr";
              "primary_cluster_addr" := VString "10.0.0.1:8201" ]};
  accepts := kind_checked
|}.

(** A well-formed status answer of a running dr primary. *)
Definition primary_status : gmap string value :=
  {[ "primary_cluster_addr" := VString "10.0.0.1:8201";
     "cluster_id" := VString "c-1";
     "mode" := VString "primary";
     "state" := VString "running";
     "known_secondaries" := VList [];
     "secondaries" := VList [] ]}.

(** A cluster that accepts writes and answers status reads, but whose
    health endpoint never shows a replication mode. *)
Definition stalled_client : Client := {|
  Write := λ _ _, (Some {| Data := ∅; WrapInfo := None |}, None);
  Read := λ _, (Some {| Data := primary_status; WrapInfo := None |}, None);
  RawRequest := λ _, Body ∅
|}.

Lemma stalled_client_never_reports typeValue state n :
  ¬ reports typeValue state (RawRequest stalled_client n).
Proof. intros (data & [= <-] & H). by rewrite lookup_empty in H. Qed.

Lemma replicationPrimaryCreate_drops_wait_error_witness :
  (∃ last w1,
     waitForReplication 11 "dr" "running" (replicationPrimaryCreatePath "dr")
       (MetaClient stalled_client) (enabled_world dr_request) =
       (Done (Some (convergence_error (replicationPrimaryCreatePath "dr") last)), w1) ∧
     health_requests (trace w1) = 11 ∧
     replicationPrimaryCreate 11 (MetaClient stalled_client) (init dr_request) =
       replicationPrimaryRead (MetaClient stalled_client) w1) ∧
  (∀ resp,
     Write stalled_client (replicationPrimaryDeletePath "dr") None = (Some resp, None) →
     not_nil (index (Data resp) "Errors") = false →
     fst (replicationPrimaryDelete 11 (MetaClient stalled_client) (init dr_request)) =
       Done None).
Proof.
  apply (replicationPrimaryCreate_drops_wait_error stalled_client dr_request 11).
  - reflexivity.
  - reflexivity.
  - intros n. apply stalled_client_never_reports.
  - lia.
Defined.

(** C2, as the specification words it, fails: on the stalled cluster the
    write succeeds, the wait uses up its retries and returns its
    convergence error, and yet the enable call returns nil. *)
Lemma replicationPrimaryCreate_surfaces_wait_error_counterexample :
  (Write stalled_client (replicationPrimaryCreatePath "dr")
     (Some {[ "primary_cluster_addr" := VString "10.0.0.1:8201" ]})).2 = None ∧
  (∀ n, ¬ reports "dr" "primary" (RawRequest stalled_client n)) ∧
  fst (waitForReplication 11 "dr" "running" (replicationPrimaryCreatePath "dr")
         (MetaClient stalled_client) (enabled_world dr_request)) =
    Done (Some (convergence_error (replicationPrimaryCreatePath "dr")
                  (Errorf "error waiting for replication" []))) ∧
  fst (replicationPrimaryCreate 11 (MetaClient stalled_client) (init dr_request)) =
    Done None.
Proof.
  split; [reflexivity|].
  split; [intros n; apply stalled_client_never_reports|].
  split; vm_compute; reflexivity.
Qed.

Example primary_scenario :
  let w' := snd (replicationPrimaryCreate 11
                   (MetaClient {| Write := Write stalled_client;
                                  Read := Read stalled_client;
                                  RawRequest := λ _, Body {[ "replication_dr_mode" :=
                                                               VString "primary" ]} |})
                   (init dr_request)) in
  writes (trace w') =
    [("/sys/replication/dr/primary/enable",
      Some {[ "primary_cluster_addr" := VString "10.0.0.1:8201" ]})] ∧
  health_requests (trace w') = 1 ∧
  EvRead "/sys/replication/dr/status" ∈ trace w' ∧
  attrs (rd w') !! "mode" = Some (VString "primary").
Proof.
  vm_compute. split; [reflexivity|]. split; [reflexivity|].
  split; [|reflexivity]. apply list_elem_of_lookup. by exists 3.
Qed.

(** ** Projection of a status answer *)

Arguments index : simpl never.

(** Whether a run has called [SetId("")], which removes the record from
    the local state. *)
Definition shouldPurge (w : World) : bool :=
  bool_decide ("" ∈ set_ids (trace w)).

Lemma snd_bind_preserves {X A B} (φ : World → X) (m : M A) (k : A → M B) w :
  (∀ a, preserves φ (k a)) → φ (snd (bind m k w)) = φ (snd (m w)).
Proof.
  intros Hk. unfold bind. destruct (m w) as [[a|p|] w']; [apply Hk|done..].
Qed.

Lemma eq_string_true v s : eq_string v s = true ↔ v = VString s.
Proof.
  destruct v; simpl; try (split; [discriminate|congruence]).
  rewrite bool_decide_eq_true. split; congruence.
Qed.

(** What the two reads do to the identifier, given the status answer. *)
Lemma replicationPrimaryRead_purge c resp w :
  Read c (replicationPrimaryReadPath (get_string (rd w) "type")) = (Some resp, None) →
  let purge := eq_string (index (Data resp) "mode") "disabled" in
  let w' := snd (replicationPrimaryRead (MetaClient c) w) in
  set_ids (trace w') = set_ids (trace w) ++ (if purge then [""] else []) ∧
  Id (rd w') = if purge then "" else Id (rd w).
Proof.
  intros HR purge. unfold replicationPrimaryRead. cbn. rewrite HR. cbn.
  fold purge. split.
  - rewrite (snd_bind_preserves (λ w, set_ids (trace w))) by (intros; preserves_auto).
    destruct purge; cbn; unfold set_ids; rewrite !omap_snoc; cbn;
      by rewrite ?app_nil_r.
  - rewrite (snd_bind_preserves (λ w, Id (rd w))) by (intros; preserves_auto).
    by destruct purge.
Qed.

Lemma replicationSecondaryRead_purge c resp w :
  Read c (replicationSecondaryReadPath (get_string (rd w) "type")) = (Some resp, None) →
  let purge := eq_string (index (Data resp) "mode") "disabled" in
  let w' := snd (replicationSecondaryRead (MetaClient c) w) in
  set_ids (trace w') = set_ids (trace w) ++ (if purge then [""] else []) ∧
  Id (rd w') = if purge then "" else Id (rd w).
Proof.
  intros HR purge. unfold replicationSecondaryRead. cbn. rewrite HR. cbn.
  fold purge. split.
  - rewrite (snd_bind_preserves (λ w, set_ids (trace w))) by (intros; preserves_auto).
    destruct purge; cbn; unfold set_ids; rewrite !omap_snoc; cbn;
      by rewrite ?app_nil_r.
  - rewrite (snd_bind_preserves (λ w, Id (rd w))) by (intros; preserves_auto).
    by destruct purge.
Qed.

(** C4: on a status answer, the primary-side read and the secondary-side
    read call [SetId("")] exactly when the field mode of the answer is the
    string disabled; then the identifier is cleared, otherwise it is the
    one the record had. *)
Theorem read_purges_iff_disabled (c : Client) (d : ResourceData) (resp : Secret) :
  Read c (replicationPrimaryReadPath (get_string d "type")) = (Some resp, None) →
  let wp := snd (replicationPrimaryRead (MetaClient c) (init d)) in
  let ws := snd (replicationSecondaryRead (MetaClient c) (init d)) in
  (shouldPurge wp = true ↔ index (Data resp) "mode" = VString "disabled") ∧
  (shouldPurge ws = true ↔ index (Data resp) "mode" = VString "disabled") ∧
  (index (Data resp) "mode" = VString "disabled" → Id (rd wp) = "" ∧ Id (rd ws) = "") ∧
  (index (Data resp) "mode" ≠ VString "disabled" →
   shouldPurge wp = false ∧ shouldPurge ws = false ∧
   Id (rd wp) = Id d ∧ Id (rd ws) = Id d).
Proof.
  intros HR wp ws.
  destruct (replicationPrimaryRead_purge c resp (init d) HR) as [Hpt Hpi].
  destruct (replicationSecondaryRead_purge c resp (init d) HR) as [Hst Hsi].
  fold wp in Hpt, Hpi. fold ws in Hst, Hsi.
  unfold shouldPurge. rewrite Hpt, Hst, Hpi, Hsi. cbn [init trace rd set_ids omap app].
  rewrite <- (eq_string_true (index (Data resp) "mode") "disabled").
  destruct (eq_string (index (Data resp) "mode") "disabled"); cbn.
  - repeat split; try done. all: intros _; apply bool_decide_eq_true; set_solver.
  - repeat split; try done.
Qed.

(** A cluster whose replication is off answers status reads with the mode
    alone. *)
Definition disabled_client : Client := {|
  Write := λ _ _, (Some {| Data := ∅; WrapInfo := None |}, None);
  Read := λ _, (Some {| Data := {[ "mode" := VString "disabled" ]};
                        WrapInfo := None |}, None);
  RawRequest := λ _, Body ∅
|}.

Definition dr_record : ResourceData := {|
  Id := "/sys/replication/dr/primary/enable";
  attrs := {[ "type" := VString "dr" ]};
  accepts := kind_checked
|}.

Lemma read_purges_iff_disabled_witness :
  let resp := {| Data := {[ "mode" := VString "disabled" ]}; WrapInfo := None |} in
  let wp := snd (replicationPrimaryRead (MetaClient disabled_client) (init dr_record)) in
  let ws := snd (replicationSecondaryRead (MetaClient disabled_client) (init dr_record)) in
  (shouldPurge wp = true ↔ index (Data resp) "mode" = VString "disabled") ∧
  (shouldPurge ws = true ↔ index (Data resp) "mode" = VString "disabled") ∧
  (index (Data resp) "mode" = VString "disabled" → Id (rd wp) = "" ∧ Id (rd ws) = "") ∧
  (index (Data resp) "mode" ≠ VString "disabled" →
   shouldPurge wp = false ∧ shouldPurge ws = false ∧
   Id (rd wp) = Id dr_record ∧ Id (rd ws) = Id dr_record).
Proof.
  apply (read_purges_iff_disabled disabled_client dr_record
           {| Data := {[ "mode" := VString "disabled" ]}; WrapInfo := None |}).
  reflexivity.
Defined.












(** The side of the replication a configuration resource stands for. *)
Inductive role : Type := Primary | Secondary.


Definition status_read (r : role) : Meta → M (option error) :=
  match r with
  | Primary => replicationPrimaryRead
  | Secondary => replicationSecondaryRead
  end.




Definition disabled_answer : Secret :=
  {| Data := {[ "mode" := VString "disabled" ]}; WrapInfo := None |}.


(** A cluster that answers every status read with [data]. *)
Definition answering (data : gmap string value) : Client := {|
  Write := λ _ _, (None, None);
  Read := λ _, (Some {| Data := data; WrapInfo := None |}, None);
  RawRequest := λ _, Body ∅
|}.


Example malformed_status_panic :
  fst (replicationSecondaryRead
         (MetaClient {| Write := Write stalled_client;
                        Read := λ _, (Some {| Data := <[ "primaries" := VString "none" ]>
                                                        (<[ "known_primary_cluster_addrs" := VList [] ]>
                                                           primary_status);
                                              WrapInfo := None |}, None);
                        RawRequest := RawRequest stalled_client |})
         (init dr_record)) =
  Panicked (InterfaceConversion (VString "none") TSlice).
Proof. vm_compute. reflexivity. Qed.

(** ** The token existence check *)

(** What the inner loop amounts to: the entries of a Go map have distinct
    keys, so at most one of them is node_id, and the order in which the map
    is ranged over does not matter. *)
Definition check_node_id (o : option value) (token_id : value) : M bool :=
  match o with
  | None => ret false
  | Some v => s <- assert_string v ;; ret (eq_string token_id s)
  end.

Lemma scan_entry_no_key kvs token_id w :
  "node_id" ∉ kvs.*1 → scan_entry kvs token_id w = (Done false, w).
Proof.
  induction kvs as [|[k v] kvs IH]; intros Hk; [done|].
  cbn [scan_entry]. rewrite fmap_cons, not_elem_of_cons in Hk.
  destruct Hk as [Hne Hk]. cbn in Hne.
  rewrite bool_decide_eq_false_2 by congruence. by apply IH.
Qed.

Lemma scan_entry_key kvs token_id v w :
  NoDup kvs.*1 → ("node_id", v) ∈ kvs →
  scan_entry kvs token_id w = check_node_id (Some v) token_id w.
Proof.
  induction kvs as [|[k v'] kvs IH]; intros Hnd Hin; [by apply elem_of_nil in Hin|].
  rewrite fmap_cons in Hnd. apply NoDup_cons in Hnd as [Hk Hnd]. cbn in Hk.
  cbn [scan_entry check_node_id].
  apply elem_of_cons in Hin as [[= <- <-]|Hin].
  - rewrite bool_decide_eq_true_2 by done.
    destruct v; try reflexivity. cbn.
    destruct (eq_string token_id s); [done|].
    by apply scan_entry_no_key.
  - assert (k ≠ "node_id") as Hne.
    { intros ->. apply Hk. apply list_elem_of_fmap. by exists ("node_id", v). }
    rewrite bool_decide_eq_false_2 by done. by apply IH.
Qed.

Lemma scan_entry_map (m : gmap string value) token_id w :
  scan_entry (map_to_list m) token_id w = check_node_id (m !! "node_id") token_id w.
Proof.
  destruct (m !! "node_id") as [v|] eqn:E.
  - apply scan_entry_key; [apply NoDup_fst_map_to_list|by apply elem_of_map_to_list].
  - apply scan_entry_no_key. intros Hin.
    apply list_elem_of_fmap in Hin as ([k v] & Hk & Hin). cbn in Hk. subst k.
    apply elem_of_map_to_list in Hin. congruence.
Qed.

(** The secondary [z] is an object whose node_id is the string [tok]. *)
Definition names (tok : string) (z : value) : Prop :=
  ∃ m, z = VMap m ∧ m !! "node_id" = Some (VString tok).

(** The secondary [z] is an object whose node_id, if it has one, is a string. *)
Definition entry_ok (z : value) : Prop :=
  ∃ m, z = VMap m ∧ (m !! "node_id" = None ∨ ∃ s, m !! "node_id" = Some (VString s)).

(** The list the check scans: empty when the field is absent or nil. *)
Definition secondaries_of (data : gmap string value) : list value :=
  match index data "secondaries" with
  | VList zs => zs
  | _ => []
  end.

(** The field secondaries is absent, nil, or a list of such objects. *)
Definition secondaries_ok (data : gmap string value) : Prop :=
  match index data "secondaries" with
  | VNil => True
  | VList zs => Forall entry_ok zs
  | _ => False
  end.

(** A scan that runs to its end without a panic answers whether some
    secondary is named by the token id, and touches nothing. *)
Lemma scan_secondaries_done zs tok w b w' :
  scan_secondaries zs (VString tok) w = (Done b, w') →
  w' = w ∧ (b = true ↔ Exists (names tok) zs).
Proof.
  revert w b w'. induction zs as [|z zs IH]; intros w b w' Hrun.
  - injection Hrun as <- <-. split; [done|]. split; [done|]. by intros ?%Exists_nil.
  - cbn [scan_secondaries] in Hrun. unfold bind at 1 in Hrun.
    destruct z as [| | | | |m]; try discriminate. cbn in Hrun.
    unfold bind at 1 in Hrun. rewrite scan_entry_map in Hrun.
    destruct (m !! "node_id") as [v|] eqn:E; cbn in Hrun.
    + destruct v as [|s| | | |]; try discriminate. cbn in Hrun.
      case_bool_decide as Hs; cbn in Hrun.
      * injection Hrun as <- <-. split; [done|]. split; [|done]. intros _.
        apply Exists_cons. left. exists m. by subst.
      * destruct (IH _ _ _ Hrun) as [-> Hb]. split; [done|]. rewrite Hb.
        rewrite Exists_cons. split; [tauto|]. intros [(m' & [= <-] & E')|]; [|done].
        rewrite E in E'. congruence.
    + destruct (IH _ _ _ Hrun) as [-> Hb]. split; [done|]. rewrite Hb.
      rewrite Exists_cons. split; [tauto|]. intros [(m' & [= <-] & E')|]; [|done].
      rewrite E in E'. congruence.
Qed.

(** On well-typed secondaries the scan does run to its end. *)
Lemma scan_secondaries_ok zs tok w :
  Forall entry_ok zs → ∃ b, scan_secondaries zs (VString tok) w = (Done b, w).
Proof.
  induction 1 as [|z zs (m & -> & Hid) _ [b IH]]; [by exists false|].
  cbn [scan_secondaries]. unfold bind at 1. cbn. unfold bind at 1.
  rewrite scan_entry_map.
  destruct Hid as [->|[s ->]]; cbn.
  - by exists b.
  - case_bool_decide; cbn; [by exists true|by exists b].
Qed.

Arguments scan_secondaries : simpl never.

(** C5, as the code has it: on a status answer without a non-nil Errors
    field, whose secondaries field is absent, nil, or a list of objects
    whose node_id (where present) is a string, the check returns no error,
    and it returns true exactly when some listed secondary has node_id
    equal to the token id of the record; with an absent, nil or empty
    list it returns false. *)
Theorem replicationTokenExists_scans_secondaries
    (c : Client) (d : ResourceData) (resp : Secret) :
  Read c (replicationPrimaryReadPath (get_string d "type")) = (Some resp, None) →
  not_nil (index (Data resp) "Errors") = false →
  secondaries_ok (Data resp) →
  ∃ b,
    replicationTokenExists (MetaClient c) (init d) =
      (Done (b, None),
       {| rd := d; trace := [EvRead (replicationPrimaryReadPath (get_string d "type"))] |}) ∧
    (b = true ↔
     ∃ z, z ∈ secondaries_of (Data resp) ∧ names (get_string d "token_id") z) ∧
    (secondaries_of (Data resp) = [] → b = false).
Proof.
  intros HR HE Hok.
  unfold replicationTokenExists. cbn. rewrite HR. cbn. rewrite HE.
  unfold secondaries_ok, secondaries_of in *.
  destruct (index (Data resp) "secondaries") as [| | | |zs|] eqn:Es; try done; cbn.
  - exists false. split; [done|]. split; [|done].
    split; [done|]. by intros (z & ?%elem_of_nil & _).
  - unfold bind at 1.
    destruct (scan_secondaries_ok zs (get_string d "token_id")
                {| rd := d;
                   trace := [EvRead (replicationPrimaryReadPath (get_string d "type"))] |}
                Hok) as [b Hrun].
    rewrite Hrun. destruct (scan_secondaries_done _ _ _ _ _ Hrun) as [_ Hb].
    exists b. split; [by destruct b|]. rewrite Hb, Exists_exists. split; [done|].
    intros ->. destruct b; [|done].
    destruct Hb as [Hb _]. by apply Exists_nil in Hb.
Qed.

(** A primary with two secondaries. *)
Definition two_secondaries : gmap string value :=
  {[ "mode" := VString "primary";
     "secondaries" :=
       VList [VMap {[ "node_id" := VString "sec-0"; "api_address" := VString "a" ]};
              VMap {[ "api_address" := VString "b"; "node_id" := VString "sec-1" ]}] ]}.

Definition listing_client : Client := {|
  Write := λ _ _, (None, None);
  Read := λ _, (Some {| Data := two_secondaries; WrapInfo := None |}, None);
  RawRequest := λ _, Body ∅
|}.

Lemma replicationTokenExists_scans_secondaries_witness :
  ∃ b,
    replicationTokenExists (MetaClient listing_client) (init token_request) =
      (Done (b, None),
       {| rd := token_request;
          trace := [EvRead (replicationPrimaryReadPath
                              (get_string token_request "type"))] |}) ∧
    (b = true ↔
     ∃ z, z ∈ secondaries_of two_secondaries ∧
          names (get_string token_request "token_id") z) ∧
    (secondaries_of two_secondaries = [] → b = false).
Proof.
  apply (replicationTokenExists_scans_secondaries listing_client token_request
           {| Data := two_secondaries; WrapInfo := None |}).
  - reflexivity.
  - reflexivity.
  - vm_compute. repeat constructor.
    + eexists. split; [reflexivity|]. right. by exists "sec-0".
    + eexists. split; [reflexivity|]. right. by exists "sec-1".
Defined.

Example token_found :
  fst (replicationTokenExists (MetaClient listing_client) (init token_request)) =
    Done (true, None).
Proof. vm_compute. reflexivity. Qed.

(** An answer that carries an Errors field and lists no secondary. *)
Definition refusing_client : Client := {|
  Write := λ _ _, (None, None);
  Read := λ _, (Some {| Data := {[ "Errors" := VList [VString "permission denied"] ]};
                        WrapInfo := None |}, None);
  RawRequest := λ _, Body ∅
|}.

(** An answer whose only secondary has a number for node_id. *)
Definition numbering_client : Client := {|
  Write := λ _ _, (None, None);
  Read := λ _, (Some {| Data := {[ "secondaries" :=
                                     VList [VMap {[ "node_id" := VNumber 7 ]}] ]};
                        WrapInfo := None |}, None);
  RawRequest := λ _, Body ∅
|}.

(** C5, as the specification words it (for every status answer), fails:
    an answer with an Errors field and no secondaries makes the check
    return true, and a secondary whose node_id is not a string makes it
    panic where the claim has it return false. *)
Lemma replicationTokenExists_every_answer_counterexample :
  (secondaries_of {[ "Errors" := VList [VString "permission denied"] ]} = [] ∧
   fst (replicationTokenExists (MetaClient refusing_client) (init token_request)) =
     Done (true, Some (Errorf "error checking replication token: %s"
                         [AValue (VList [VString "permission denied"])]))) ∧
  ((¬ ∃ z, z ∈ secondaries_of {[ "secondaries" :=
                                   VList [VMap {[ "node_id" := VNumber 7 ]}] ]} ∧
           names "sec-1" z) ∧
   fst (replicationTokenExists (MetaClient numbering_client) (init token_request)) =
     Panicked (InterfaceConversion (VNumber 7) TString)).
Proof.
  split; [split; vm_compute; reflexivity|].
  split; [|vm_compute; reflexivity].
  intros (z & Hz & m & -> & Hm).
  replace (secondaries_of {[ "secondaries" := VList [VMap {[ "node_id" := VNumber 7 ]}] ]})
    with [VMap {[ "node_id" := VNumber 7 ]}] in Hz by (vm_compute; reflexivity).
  apply list_elem_of_singleton in Hz. injection Hz as ->.
  vm_compute in Hm. discriminate.
Qed.

(** ** The three existence checks *)

Inductive resource : Type := PrimaryConfig | SecondaryConfig | SecondaryToken.

Definition exists_check (r : resource) : Meta → M (bool * option error) :=
  match r with
  | PrimaryConfig => replicationPrimaryExists
  | SecondaryConfig => replicationSecondaryExists
  | SecondaryToken => replicationTokenExists
  end.

(** The status path each check reads. *)
Definition status_path (r : resource) (typeValue : string) : string :=
  match r with
  | SecondaryConfig => replicationSecondaryReadPath typeValue
  | _ => replicationPrimaryReadPath typeValue
  end.

(** The error each check builds around what went wrong. *)
Definition check_error (r : resource) (typeValue : string) (cause : fmtarg error) : error :=
  match r with
  | SecondaryToken => Errorf "error checking replication token: %s" [cause]
  | _ => Errorf "error checking %s replication: %s" [AString typeValue; cause]
  end.

(** What in a status answer says that the thing checked for is not there. *)
Definition absent (r : resource) (d : ResourceData) (data : gmap string value) : Prop :=
  match r with
  | SecondaryToken =>
      ¬ ∃ z, z ∈ secondaries_of data ∧ names (get_string d "token_id") z
  | _ => index data "mode" = VString "disabled"
  end.

(** C10, as the code has it. For each of the three checks: without a
    client the check returns false with the acquisition error and reads
    nothing; with a client, a failed status read makes it return true with
    the wrapped error, and so does an answer whose Errors field is not nil;
    and with a client it returns false only after a read that succeeded,
    with a nil or absent Errors field and a content that says the thing is
    not there (mode disabled for the two configurations, no secondary with
    the token id as node_id for the token), and then without an error. *)
Theorem exists_check_contract (r : resource) (c : Client) (d : ResourceData) :
  let typeValue := get_string d "type" in
  let path := status_path r typeValue in
  let out := fst (exists_check r (MetaClient c) (init d)) in
  (∀ e w, exists_check r (MetaError e) w = (Done (false, Some e), w)) ∧
  (∀ err, (Read c path).2 = Some err →
          out = Done (true, Some (check_error r typeValue (AError err)))) ∧
  (∀ resp, Read c path = (Some resp, None) →
           not_nil (index (Data resp) "Errors") = true →
           out = Done (true, Some (check_error r typeValue
                                     (AValue (index (Data resp) "Errors"))))) ∧
  (∀ o, out = Done (false, o) →
        o = None ∧
        ∃ resp, Read c path = (Some resp, None) ∧
                not_nil (index (Data resp) "Errors") = false ∧
                absent r d (Data resp)).
Proof.
  intros typeValue path out. subst out path. split_and!.
  - by destruct r.
  - intros err HR.
    destruct r; cbn; fold typeValue; destruct (Read c _) as [resp o];
      cbn in HR; subst o; reflexivity.
  - intros resp HR HE.
    destruct r; cbn; fold typeValue; cbn in HR; rewrite HR; cbn; by rewrite HE.
  - intros o.
    destruct r; cbn; fold typeValue;
      destruct (Read c _) as [[resp|] [err|]] eqn:HR; cbn; try discriminate;
      destruct (not_nil (index (Data resp) "Errors")) eqn:HE; try discriminate.
    + destruct (eq_string (index (Data resp) "mode") "disabled") eqn:Hm;
        cbn; [|discriminate].
      intros [= <-]. split; [done|]. exists resp. split_and!; [done..|].
      by apply eq_string_true.
    + destruct (eq_string (index (Data resp) "mode") "disabled") eqn:Hm;
        cbn; [|discriminate].
      intros [= <-]. split; [done|]. exists resp. split_and!; [done..|].
      by apply eq_string_true.
    + unfold absent, secondaries_of.
      destruct (index (Data resp) "secondaries") as [| | | |zs|] eqn:Es;
        cbn; try discriminate.
      * intros [= <-]. split; [done|]. exists resp. split_and!; [done..|].
        rewrite Es. by intros (z & ?%elem_of_nil & _).
      * unfold bind at 1.
        destruct (scan_secondaries zs _ _) as [[b| |] w'] eqn:Hrun; try discriminate.
        destruct (scan_secondaries_done _ _ _ _ _ Hrun) as [_ Hb].
        destruct b; [discriminate|]. intros [= <-]. split; [done|].
        exists resp. split_and!; [done..|]. rewrite Es.
        intros Hex. apply Exists_exists in Hex. by apply Hb in Hex.
Qed.

(** A status answer of a disabled cluster that has the key Errors, bound
    to null. *)
Definition null_errors_client : Client := {|
  Write := λ _ _, (None, None);
  Read := λ _, (Some {| Data := {[ "Errors" := VNil; "mode" := VString "disabled" ]};
                        WrapInfo := None |}, None);
  RawRequest := λ _, Body ∅
|}.

(** C10, as the specification words it, fails on two inputs. When the
    client cannot be obtained the check returns false, with the error, and
    no read has taken place. And an answer that carries the key Errors
    bound to null is not taken for an error: the check goes by the mode
    and returns false without an error. *)
Lemma exists_check_false_counterexample :
  replicationPrimaryExists (MetaError (ErrExternal "no client")) (init dr_record) =
    (Done (false, Some (ErrExternal "no client")), init dr_record) ∧
  trace (init dr_record) = [] ∧
  has_key {[ "Errors" := VNil; "mode" := VString "disabled" ]} "Errors" = true ∧
  fst (replicationPrimaryExists (MetaClient null_errors_client) (init dr_record)) =
    Done (false, None).
Proof. split_and!; vm_compute; reflexivity. Qed.

(** * Further properties of the package *)

(** ** The wait as a whole *)

(** With fuel for eleven attempts, more fuel changes nothing; the wait
    returns after [n + 1] health requests for some [n ≤ 10], having slept
    the interval [n] times and left the resource data alone. It returns nil
    exactly when request [n] was the first to report the target state, and
    the convergence error only when none of the eleven did. *)
Theorem waitForReplication_bounded
    (c : Client) (typeValue state path : string) (w : World) (fuel : nat) :
  10 < fuel →
  let r := waitForReplication fuel typeValue state path (MetaClient c) w in
  let h := health_requests (trace w) in
  r = waitForReplication 11 typeValue state path (MetaClient c) w ∧
  ∃ n, n ≤ 10 ∧
       snd r = {| rd := rd w;
                  trace := trace w ++ retry_events Second n ++ [health_event] |} ∧
       sleeps (retry_events Second n ++ [health_event]) = replicate n Second ∧
       (∀ j, j < n → ¬ reports typeValue (target_state state) (RawRequest c (h + j))) ∧
       ((fst r = Done None ∧
         reports typeValue (target_state state) (RawRequest c (h + n))) ∨
        (n = 10 ∧
         ¬ reports typeValue (target_state state) (RawRequest c (h + n)) ∧
         ∃ last, fst r = Done (Some (convergence_error path last)))).
Proof.
  intros Hfuel r h. subst r.
  rewrite !waitForReplication_run.
  destruct (first_match_or_none
              (λ j, reports typeValue (target_state state) (RawRequest c (h + j)))
              (λ j, reports_dec _ _ _) 10) as [Hnone|(n & Hn & Hok & Hfirst)].
  - destruct (retry_loop_exhausted c typeValue (target_state state) interval
                interval_not_Stop 10 10%N 0%N fuel w)
      as (last & Hl & Hrun); [done|done|done|].
    destruct (retry_loop_exhausted c typeValue (target_state state) interval
                interval_not_Stop 10 10%N 0%N 11 w)
      as (last' & Hl' & Hrun'); [done|lia|done|].
    rewrite Hl in Hl'. injection Hl' as <-.
    rewrite Hrun, Hrun'. split; [reflexivity|].
    exists 10. split_and!; [lia|reflexivity|apply sleeps_retry_events| |].
    + intros j Hj. apply Hnone. lia.
    + right. split_and!; [done|by apply Hnone|by exists last].
  - rewrite (retry_loop_converges c typeValue (target_state state) interval
               interval_not_Stop n 10%N 0%N fuel w) by (done || lia).
    rewrite (retry_loop_converges c typeValue (target_state state) interval
               interval_not_Stop n 10%N 0%N 11 w) by (done || lia).
    split; [reflexivity|].
    exists n. split_and!; [lia|reflexivity|apply sleeps_retry_events|done|].
    left. by split.
Qed.

Lemma waitForReplication_bounded_witness :
  let r := waitForReplication 50 "dr" "running" "p" (MetaClient late_client) (init blank) in
  r = waitForReplication 11 "dr" "running" "p" (MetaClient late_client) (init blank) ∧
  ∃ n, n ≤ 10 ∧
       snd r = {| rd := blank;
                  trace := [] ++ retry_events Second n ++ [health_event] |} ∧
       sleeps (retry_events Second n ++ [health_event]) = replicate n Second ∧
       (∀ j, j < n →
             ¬ reports "dr" (target_state "running") (RawRequest late_client (0 + j))) ∧
       ((fst r = Done None ∧
         reports "dr" (target_state "running") (RawRequest late_client (0 + n))) ∨
        (n = 10 ∧
         ¬ reports "dr" (target_state "running") (RawRequest late_client (0 + n)) ∧
         ∃ last, fst r = Done (Some (convergence_error "p" last)))).
Proof.
  apply (waitForReplication_bounded late_client "dr" "running" "p" (init blank) 50).
  lia.
Defined.

(** ** Writes that fail or are refused *)

(** The six operations that write to the cluster. *)
Inductive writer : Type :=
| PrimaryCreate | PrimaryDelete
| SecondaryCreate | SecondaryDelete
| TokenCreate | TokenDelete.

Definition run_writer (op : writer) (fuel : nat) (meta : Meta) : M (option error) :=
  match op with
  | PrimaryCreate => replicationPrimaryCreate fuel meta
  | PrimaryDelete => replicationPrimaryDelete fuel meta
  | SecondaryCreate => replicationSecondaryCreate meta
  | SecondaryDelete => replicationSecondaryDelete meta
  | TokenCreate => replicationTokenCreate meta
  | TokenDelete => replicationTokenDelete meta
  end.

Definition writer_path (op : writer) (typeValue : string) : string :=
  match op with
  | PrimaryCreate => replicationPrimaryCreatePath typeValue
  | PrimaryDelete => replicationPrimaryDeletePath typeValue
  | SecondaryCreate => replicationSecondaryCreatePath typeValue
  | SecondaryDelete => replicationSecondaryDeletePath typeValue
  | TokenCreate => replicationTokenCreatePath typeValue
  | TokenDelete => replicationTokenDeletePath typeValue
  end.

Definition writer_payload (op : writer) (d : ResourceData) : payload :=
  match op with
  | PrimaryCreate =>
      if negb (bool_decide (get_string d "primary_cluster_addr" = ""))
      then Some {[ "primary_cluster_addr" :=
                     VString (get_string d "primary_cluster_addr") ]}
      else None
  | SecondaryCreate => Some (secondary_payload d)
  | TokenCreate => Some (token_payload d)
  | TokenDelete => Some {[ "id" := VString (get_string d "token_id") ]}
  | PrimaryDelete | SecondaryDelete => None
  end.

(** The error each operation builds around [cause]. *)
Definition writer_error (op : writer) (refused : bool) (typeValue : string)
    (cause : fmtarg error) : error :=
  match op with
  | PrimaryCreate => Errorf "error enabling %s replication: %s" [AString typeValue; cause]
  | SecondaryCreate =>
      if refused
      then Errorf "error returned from %s primary: %s" [AString typeValue; cause]
      else Errorf "error enabling %s replication: %s" [AString typeValue; cause]
  | PrimaryDelete | SecondaryDelete =>
      Errorf "error disabling %s replication: %s" [AString typeValue; cause]
  | TokenCreate => Errorf "error creating replication token: %s" [cause]
  | TokenDelete => Errorf "error revoking secondary token: %s" [cause]
  end.

(** How an operation finds that the cluster refused the write: the three
    creations look for the key Errors in the answer, null or not; the three
    deletions ask for a value that is not nil. *)
Definition refusal (op : writer) (resp : Secret) : Prop :=
  match op with
  | PrimaryCreate | SecondaryCreate | TokenCreate => is_Some (Data resp !! "Errors")
  | PrimaryDelete | SecondaryDelete | TokenDelete =>
      not_nil (index (Data resp) "Errors") = true
  end.

Ltac run_writer_case d :=
  unfold secondary_payload, token_payload; cbn -[insert singletonM];
  let E1 := fresh "E" in let E2 := fresh "E" in let E3 := fresh "E" in
  destruct (negb (bool_decide (get_string d "primary_cluster_addr" = ""))) eqn:E1;
  destruct (negb (bool_decide (get_string d "ttl" = ""))) eqn:E2;
  destruct (negb (bool_decide (get_string d "secondary_public_key" = ""))) eqn:E3;
  cbn -[insert singletonM]; rewrite ?E3; cbn -[insert singletonM].

(** When the write itself fails, every one of the six operations returns
    its error around the cause at once: the trace holds that write and
    nothing else (no health request, no status read) and the resource data,
    identifier included, are as before. *)
Theorem write_failure_is_returned
    (op : writer) (c : Client) (d : ResourceData) (fuel : nat)
    (resp : option Secret) (err : error) :
  let typeValue := get_string d "type" in
  Write c (writer_path op typeValue) (writer_payload op d) = (resp, Some err) →
  run_writer op fuel (MetaClient c) (init d) =
    (Done (Some (writer_error op false typeValue (AError err))),
     {| rd := d; trace := [EvWrite (writer_path op typeValue) (writer_payload op d)] |}).
Proof.
  intros typeValue. subst typeValue.
  destruct op; unfold run_writer, writer_path, writer_payload, writer_error;
    [unfold replicationPrimaryCreate|unfold replicationPrimaryDelete
    |unfold replicationSecondaryCreate|unfold replicationSecondaryDelete
    |unfold replicationTokenCreate|unfold replicationTokenDelete];
    run_writer_case d; intros ->; reflexivity.
Qed.

(** A cluster that is unreachable. *)
Definition unreachable_client : Client := {|
  Write := λ _ _, (None, Some (ErrExternal "connection refused"));
  Read := λ _, (None, Some (ErrExternal "connection refused"));
  RawRequest := λ _, TransportError (ErrExternal "connection refused")
|}.

Lemma write_failure_is_returned_witness :
  run_writer TokenCreate 11 (MetaClient unreachable_client) (init token_request) =
    (Done (Some (writer_error TokenCreate false (get_string token_request "type")
                   (AError (ErrExternal "connection refused")))),
     {| rd := token_request;
        trace := [EvWrite (writer_path TokenCreate (get_string token_request "type"))
                    (writer_payload TokenCreate token_request)] |}).
Proof.
  apply (write_failure_is_returned TokenCreate unreachable_client token_request 11 None
           (ErrExternal "connection refused")).
  reflexivity.
Defined.

(** When the write goes through but the answer says the cluster refused
    it, the operation returns its error around the value of Errors, again
    with nothing but the write in the trace and the resource data as
    before: no identifier is set. *)
Theorem write_refusal_is_returned
    (op : writer) (c : Client) (d : ResourceData) (fuel : nat) (resp : Secret) :
  let typeValue := get_string d "type" in
  Write c (writer_path op typeValue) (writer_payload op d) = (Some resp, None) →
  refusal op resp →
  run_writer op fuel (MetaClient c) (init d) =
    (Done (Some (writer_error op true typeValue (AValue (index (Data resp) "Errors")))),
     {| rd := d; trace := [EvWrite (writer_path op typeValue) (writer_payload op d)] |}).
Proof.
  intros typeValue. subst typeValue.
  destruct op; unfold run_writer, writer_path, writer_payload, writer_error, refusal;
    [unfold replicationPrimaryCreate|unfold replicationPrimaryDelete
    |unfold replicationSecondaryCreate|unfold replicationSecondaryDelete
    |unfold replicationTokenCreate|unfold replicationTokenDelete];
    run_writer_case d; intros -> Href; cbn -[insert singletonM];
    first [ rewrite Href; reflexivity
          | destruct Href as [v Hv]; unfold index; rewrite Hv; reflexivity ].
Qed.

(** A cluster that answers every write with a null Errors entry. *)
Definition refused_answer : Secret :=
  {| Data := {[ "Errors" := VNil ]}; WrapInfo := None |}.

Definition refusing_writes_client : Client := {|
  Write := λ _ _, (Some refused_answer, None);
  Read := λ _, (Some {| Data := primary_status; WrapInfo := None |}, None);
  RawRequest := λ _, Body ∅
|}.

Lemma write_refusal_is_returned_witness :
  run_writer PrimaryCreate 11 (MetaClient refusing_writes_client) (init dr_request) =
    (Done (Some (writer_error PrimaryCreate true (get_string dr_request "type")
                   (AValue (index (Data refused_answer) "Errors")))),
     {| rd := dr_request;
        trace := [EvWrite (writer_path PrimaryCreate (get_string dr_request "type"))
                    (writer_payload PrimaryCreate dr_request)] |}).
Proof.
  apply (write_refusal_is_returned PrimaryCreate refusing_writes_client dr_request 11
           refused_answer).
  - reflexivity.
  - by exists VNil.
Defined.

(** ** Answers without a body *)

Definition is_delete (op : writer) : bool :=
  match op with
  | PrimaryDelete | SecondaryDelete | TokenDelete => true
  | _ => false
  end.

(** A write may come back with neither an answer nor an error. The three
    deletions then read [resp.Data] through the nil pointer and panic,
    right after the write. *)
Theorem delete_panics_without_answer
    (op : writer) (c : Client) (d : ResourceData) (fuel : nat) :
  let typeValue := get_string d "type" in
  is_delete op = true →
  Write c (writer_path op typeValue) (writer_payload op d) = (None, None) →
  run_writer op fuel (MetaClient c) (init d) =
    (Panicked NilDereference,
     {| rd := d; trace := [EvWrite (writer_path op typeValue) (writer_payload op d)] |}).
Proof.
  intros typeValue Hdel. subst typeValue.
  destruct op; try discriminate Hdel;
    unfold run_writer, writer_path, writer_payload;
    [unfold replicationPrimaryDelete|unfold replicationSecondaryDelete
    |unfold replicationTokenDelete];
    cbn -[insert singletonM]; intros ->; reflexivity.
Qed.

Lemma delete_panics_without_answer_witness :
  run_writer SecondaryDelete 11 (MetaClient silent_client) (init dr_record) =
    (Panicked NilDereference,
     {| rd := dr_record;
        trace := [EvWrite (writer_path SecondaryDelete (get_string dr_record "type"))
                    (writer_payload SecondaryDelete dr_record)] |}).
Proof.
  apply (delete_panics_without_answer SecondaryDelete silent_client dr_record 11);
    reflexivity.
Defined.

(** The wrapping envelope of an answer, when there is an answer and it has
    one. *)
Definition envelope (resp : option Secret) : option SecretWrapInfo :=
  resp ≫= WrapInfo.

(** Issuing a token: when the write is accepted but the answer is missing
    or has no wrapping envelope, the call panics on [resp.WrapInfo.Token].
    By then the identifier has been set to the token id; no secondary
    token has been stored and the status has not been read. *)
Theorem replicationTokenCreate_panics_without_envelope
    (c : Client) (d : ResourceData) (resp : option Secret) :
  let path := replicationTokenCreatePath (get_string d "type") in
  Write c path (Some (token_payload d)) = (resp, None) →
  errors_entry resp = None →
  envelope resp = None →
  replicationTokenCreate (MetaClient c) (init d) =
    (Panicked NilDereference,
     {| rd := {| Id := get_string d "token_id"; attrs := attrs d;
                 accepts := accepts d |};
        trace := [EvWrite path (Some (token_payload d));
                  EvSetId (get_string d "token_id")] |}).
Proof.
  intros path. subst path. unfold replicationTokenCreate.
  run_writer_case d; intros -> HE Henv; cbn -[insert singletonM];
    rewrite HE; cbn -[insert singletonM];
    (destruct resp as [resp|]; cbn -[insert singletonM]; [|reflexivity]);
    cbn in Henv; rewrite Henv; reflexivity.
Qed.

Lemma replicationTokenCreate_panics_without_envelope_witness :
  replicationTokenCreate (MetaClient silent_client) (init token_request) =
    (Panicked NilDereference,
     {| rd := {| Id := get_string token_request "token_id";
                 attrs := attrs token_request;
                 accepts := accepts token_request |};
        trace := [EvWrite (replicationTokenCreatePath (get_string token_request "type"))
                    (Some (token_payload token_request));
                  EvSetId (get_string token_request "token_id")] |}).
Proof.
  apply (replicationTokenCreate_panics_without_envelope silent_client token_request None);
    reflexivity.
Defined.

(** ** Status reads that fail *)

(** When the status read returns an error, the primary-side read hands
    that error back as it is. The secondary-side read and the token read
    first print [resp.Data]: they hand the error back only if the read also
    gave an answer, and panic on the nil pointer otherwise. None of the
    three touches the resource data. *)
Theorem failed_status_read
    (c : Client) (d : ResourceData) (resp : option Secret) (err : error) :
  let path := replicationPrimaryReadPath (get_string d "type") in
  let w := {| rd := d; trace := [EvRead path] |} in
  let printed : outcome (option error) :=
    match resp with Some _ => Done (Some err) | None => Panicked NilDereference end in
  Read c path = (resp, Some err) →
  replicationPrimaryRead (MetaClient c) (init d) = (Done (Some err), w) ∧
  replicationSecondaryRead (MetaClient c) (init d) = (printed, w) ∧
  replicationTokenRead (MetaClient c) (init d) = (printed, w).
Proof.
  intros path w printed HR. subst path w printed.
  unfold replicationPrimaryRead, replicationSecondaryRead, replicationTokenRead.
  cbn.
  change (replicationSecondaryReadPath (get_string d "type"))
    with (replicationPrimaryReadPath (get_string d "type")).
  rewrite HR. cbn. by destruct resp.
Qed.

Lemma failed_status_read_witness :
  let path := replicationPrimaryReadPath (get_string dr_record "type") in
  let w := {| rd := dr_record; trace := [EvRead path] |} in
  let printed : outcome (option error) := Panicked NilDereference in
  replicationPrimaryRead (MetaClient unreachable_client) (init dr_record) =
    (Done (Some (ErrExternal "connection refused")), w) ∧
  replicationSecondaryRead (MetaClient unreachable_client) (init dr_record) = (printed, w) ∧
  replicationTokenRead (MetaClient unreachable_client) (init dr_record) = (printed, w).
Proof.
  apply (failed_status_read unreachable_client dr_record None
           (ErrExternal "connection refused")).
  reflexivity.
Defined.

(** ** Reads and existence checks on one answer *)

Definition status_exists (r : role) : Meta → M (bool * option error) :=
  match r with
  | Primary => replicationPrimaryExists
  | Secondary => replicationSecondaryExists
  end.

(** On one and the same status answer with no Errors, the existence check
    of a configuration says "gone" exactly when its read removes the record
    from the state, and "there" exactly when the read keeps it. *)
Theorem read_and_exists_agree (r : role) (c : Client) (d : ResourceData) (resp : Secret) :
  Read c (replicationPrimaryReadPath (get_string d "type")) = (Some resp, None) →
  not_nil (index (Data resp) "Errors") = false →
  let found := fst (status_exists r (MetaClient c) (init d)) in
  let after := snd (status_read r (MetaClient c) (init d)) in
  (found = Done (false, None) ↔ shouldPurge after = true) ∧
  (found = Done (true, None) ↔ shouldPurge after = false).
Proof.
  intros HR HE found after.
  assert (found = Done (negb (eq_string (index (Data resp) "mode") "disabled"), None))
    as ->.
  { subst found. destruct r; cbn;
      change (replicationSecondaryReadPath (get_string d "type"))
        with (replicationPrimaryReadPath (get_string d "type"));
      rewrite HR; cbn; rewrite HE;
      by destruct (eq_string (index (Data resp) "mode") "disabled"). }
  assert (shouldPurge after = eq_string (index (Data resp) "mode") "disabled") as ->.
  { subst after. unfold shouldPurge.
    destruct r; cbn [status_read];
      [destruct (replicationPrimaryRead_purge c resp (init d) HR) as [-> _]
      |destruct (replicationSecondaryRead_purge c resp (init d) HR) as [-> _]];
      cbn; destruct (eq_string (index (Data resp) "mode") "disabled"); cbn;
      (apply bool_decide_eq_true; set_solver) || (apply bool_decide_eq_false; set_solver). }
  destruct (eq_string (index (Data resp) "mode") "disabled"); cbn; split; split;
    congruence.
Qed.

Lemma read_and_exists_agree_witness :
  let found := fst (status_exists Secondary (MetaClient disabled_client) (init dr_record)) in
  let after := snd (status_read Secondary (MetaClient disabled_client) (init dr_record)) in
  (found = Done (false, None) ↔ shouldPurge after = true) ∧
  (found = Done (true, None) ↔ shouldPurge after = false).
Proof.
  apply (read_and_exists_agree Secondary disabled_client dr_record disabled_answer);
    reflexivity.
Defined.

(** ** What a read stores *)
















(** A list the schema does not take is dropped without a word. *)
Example read_drops_a_list_the_schema_refuses :
  let run := replicationPrimaryRead
               (MetaClient (answering (<[ "secondaries" := VList [VNumber 7] ]>
                                         primary_status)))
               (init dr_record) in
  fst run = Done None ∧
  attrs (rd (snd run)) !! "secondaries" = None ∧
  attrs (rd (snd run)) !! "known_secondaries" = Some (VList []) ∧
  stores "secondaries" (trace (snd run)) = [VList [VNumber 7]].
Proof. vm_compute. split_and!; reflexivity. Qed.

(** ** Enabling and disabling a primary, end to end *)


(** The shape of the trace a wait leaves, whatever the cluster answers. *)
Lemma waitForReplication_trace fuel typeValue state path c w :
  10 < fuel →
  ∃ n r, n ≤ 10 ∧
         waitForReplication fuel typeValue state path (MetaClient c) w =
           (Done r, {| rd := rd w;
                       trace := trace w ++ retry_events Second n ++ [health_event] |}).
Proof.
  intros Hfuel. rewrite waitForReplication_run.
  destruct (first_match_or_none
              (λ j, reports typeValue (target_state state)
                      (RawRequest c (health_requests (trace w) + j)))
              (λ j, reports_dec _ _ _) 10) as [Hnone|(n & Hn & Hok & Hfirst)].
  - destruct (retry_loop_exhausted c typeValue (target_state state) interval
                interval_not_Stop 10 10%N 0%N fuel w)
      as (last & _ & Hrun); [done|done|done|].
    rewrite Hrun. by exists 10, (Some (convergence_error path last)).
  - rewrite (retry_loop_converges c typeValue (target_state state) interval
               interval_not_Stop n 10%N 0%N fuel w) by (done || lia).
    by exists n, None.
Qed.




(** Disabling a primary on a cluster that accepts the write: the call
    returns nil whatever the health endpoint says, after the write and
    between one and eleven health requests. It reads no status and leaves
    the resource data, identifier included, as they were. *)
Theorem replicationPrimaryDelete_accepted
    (c : Client) (d : ResourceData) (fuel : nat) (resp : Secret) :
  let path := replicationPrimaryDeletePath (get_string d "type") in
  Write c path None = (Some resp, None) →
  not_nil (index (Data resp) "Errors") = false →
  10 < fuel →
  ∃ n, n ≤ 10 ∧
       replicationPrimaryDelete fuel (MetaClient c) (init d) =
         (Done None,
          {| rd := d;
             trace := [EvWrite path None] ++ retry_events Second n ++ [health_event] |}).
Proof.
  intros path HW HE Hfuel.
  unfold replicationPrimaryDelete. cbn. fold path. rewrite HW. cbn. rewrite HE.
  unfold bind.
  destruct (waitForReplication_trace fuel (get_string d "type") "disabled" path c
              {| rd := d; trace := [EvWrite path None] |} Hfuel)
    as (n & r & Hn & ->).
  by exists n.
Qed.

Lemma replicationPrimaryDelete_accepted_witness :
  ∃ n, n ≤ 10 ∧
       replicationPrimaryDelete 11 (MetaClient stalled_client) (init dr_record) =
         (Done None,
          {| rd := dr_record;
             trace := [EvWrite (replicationPrimaryDeletePath (get_string dr_record "type"))
                         None] ++ retry_events Second n ++ [health_event] |}).
Proof.
  apply (replicationPrimaryDelete_accepted stalled_client dr_record 11
           {| Data := ∅; WrapInfo := None |}).
  - reflexivity.
  - reflexivity.
  - lia.
Defined.

(** ** Who asks for the health of the cluster *)

Lemma scan_entry_preserves {X} (φ : World → X) kvs token_id :
  preserves φ (scan_entry kvs token_id).
Proof.
  induction kvs as [|[k v] kvs IH]; cbn [scan_entry]; [apply preserves_ret|].
  destruct (bool_decide (k = "node_id")); [|done].
  apply preserves_bind; [apply preserves_assert_string|]. intros s.
  destruct (eq_string token_id s); [apply preserves_ret|done].
Qed.

Lemma scan_secondaries_preserves {X} (φ : World → X) zs token_id :
  preserves φ (scan_secondaries zs token_id).
Proof.
  induction zs as [|z zs IH]; cbn [scan_secondaries]; [apply preserves_ret|].
  apply preserves_bind; [apply preserves_assert_map|]. intros m.
  apply preserves_bind; [apply scan_entry_preserves|]. intros [|];
    [apply preserves_ret|done].
Qed.

(** Steps that add one event which is not a health request. *)
Ltac no_health_step :=
  intros ?; cbn -[health_requests]; rewrite ?health_requests_app;
  match goal with
  | |- _ + ?x = _ => change x with 0; lia
  | |- _ => reflexivity
  end.

Ltac no_health :=
  repeat first
    [ preserves_step
    | apply scan_secondaries_preserves
    | progress unfold Logical_Read, Logical_Write
    | solve [no_health_step] ].

(** Only enabling and disabling a primary wait for convergence: the other
    operations of the three resources (the reads, the existence checks,
    enabling and disabling a secondary, issuing and revoking a token) send
    no health request, with any client and any resource data. *)
Theorem only_the_primary_polls (meta : Meta) (d : ResourceData) :
  let polls {A} (m : M A) := health_requests (trace (snd (m (init d)))) in
  polls (replicationPrimaryRead meta) = 0 ∧
  polls (replicationPrimaryExists meta) = 0 ∧
  polls (replicationSecondaryCreate meta) = 0 ∧
  polls (replicationSecondaryRead meta) = 0 ∧
  polls (replicationSecondaryDelete meta) = 0 ∧
  polls (replicationSecondaryExists meta) = 0 ∧
  polls (replicationTokenCreate meta) = 0 ∧
  polls (replicationTokenRead meta) = 0 ∧
  polls (replicationTokenDelete meta) = 0 ∧
  polls (replicationTokenExists meta) = 0.
Proof.
  assert (Hq : ∀ A (m : M A),
             preserves (λ w, health_requests (trace w)) m →
             health_requests (trace (snd (m (init d)))) = 0).
  { intros A m Hm. by rewrite (Hm (init d)). }
  assert (preserves (λ w, health_requests (trace w)) (replicationPrimaryRead meta))
    by (unfold replicationPrimaryRead; no_health).
  assert (preserves (λ w, health_requests (trace w)) (replicationSecondaryRead meta))
    by (unfold replicationSecondaryRead; no_health).
  assert (preserves (λ w, health_requests (trace w)) (replicationTokenRead meta))
    by (unfold replicationTokenRead; no_health).
  cbn zeta. split_and!; apply Hq; try done.
  - unfold replicationPrimaryExists; no_health.
  - unfold replicationSecondaryCreate; no_health.
  - unfold replicationSecondaryDelete; no_health.
  - unfold replicationSecondaryExists; no_health.
  - unfold replicationTokenCreate; no_health.
  - unfold replicationTokenDelete; no_health.
  - unfold replicationTokenExists; no_health.
Qed.

(** ** The scan of the token check *)

(** Go ranges over a map in an order of its own choosing. The inner loop
    of the check gives the same result for every order in which the
    entries of a secondary can come. *)
Theorem scan_entry_any_order
    (m : gmap string value) (kvs : list (string * value)) (token_id : value) (w : World) :
  kvs ≡ₚ map_to_list m →
  scan_entry kvs token_id w = scan_entry (map_to_list m) token_id w.
Proof.
  intros Hp. rewrite scan_entry_map.
  assert (NoDup kvs.*1) as Hnd.
  { rewrite Hp. apply NoDup_fst_map_to_list. }
  destruct (m !! "node_id") as [v|] eqn:E.
  - apply scan_entry_key; [done|]. rewrite Hp. by apply elem_of_map_to_list.
  - apply scan_entry_no_key. intros Hin.
    apply list_elem_of_fmap in Hin as ([k v] & Hk & Hin). cbn in Hk. subst k.
    rewrite Hp in Hin. apply elem_of_map_to_list in Hin. congruence.
Qed.

Lemma scan_entry_any_order_witness :
  scan_entry (reverse (map_to_list ({[ "api_address" := VString "b";
                                        "node_id" := VString "sec-1" ]}
                                      : gmap string value)))
    (VString "sec-1") (init blank) =
  scan_entry (map_to_list ({[ "api_address" := VString "b";
                              "node_id" := VString "sec-1" ]} : gmap string value))
    (VString "sec-1") (init blank).
Proof.
  apply (scan_entry_any_order
           {[ "api_address" := VString "b"; "node_id" := VString "sec-1" ]}).
  apply reverse_Permutation.
Defined.

Lemma scan_secondaries_cons z zs token_id :
  scan_secondaries (z :: zs) token_id =
  (m <- assert_map z ;;
   found <- scan_entry (map_to_list m) token_id ;;
   if found then ret true else scan_secondaries zs token_id).
Proof. reflexivity. Qed.

(** One turn of the outer loop on a secondary that is an object. *)
Lemma scan_secondaries_object (m : gmap string value) zs tok w :
  scan_secondaries (VMap m :: zs) (VString tok) w =
  match m !! "node_id" with
  | None => scan_secondaries zs (VString tok) w
  | Some (VString s) =>
      if bool_decide (tok = s) then (Done true, w)
      else scan_secondaries zs (VString tok) w
  | Some v => (Panicked (InterfaceConversion v TString), w)
  end.
Proof.
  rewrite scan_secondaries_cons. unfold bind. cbn. rewrite scan_entry_map.
  destruct (m !! "node_id") as [[]|]; cbn; try done. by case_bool_decide.
Qed.

Lemma scan_secondaries_prefix zs1 z zs2 tok w :
  Forall entry_ok zs1 →
  (names tok z →
   scan_secondaries (zs1 ++ z :: zs2) (VString tok) w = (Done true, w)) ∧
  (¬ Exists (names tok) zs1 → (∀ m, z ≠ VMap m) →
   scan_secondaries (zs1 ++ z :: zs2) (VString tok) w =
     (Panicked (InterfaceConversion z TMapString), w)).
Proof.
  induction 1 as [|z1 zs1 (m1 & -> & Hid) Hok [IH1 IH2]]; cbn [app].
  - split.
    + intros (m & -> & Hm). rewrite scan_secondaries_object, Hm.
      by rewrite bool_decide_eq_true_2.
    + intros _ Hz. rewrite scan_secondaries_cons. unfold bind.
      destruct z; try done. by destruct (Hz m).
  - rewrite scan_secondaries_object.
    destruct Hid as [Hid|[s Hid]]; rewrite Hid.
    + split; [done|].
      intros Hno. apply IH2. intros Hex. apply Hno. by apply Exists_cons; right.
    + case_bool_decide as Hs1.
      * split; [done|]. intros Hno. exfalso. apply Hno. apply Exists_cons. left.
        exists m1. by subst.
      * split; [done|].
        intros Hno. apply IH2. intros Hex. apply Hno. by apply Exists_cons; right.
Qed.

(** The check stops at the first secondary that carries the token id:
    when the secondaries before it are well-typed, it returns true
    whatever comes after it, well-typed or not. And it panics if, before
    any match, it meets a secondary that is not an object. *)
Theorem replicationTokenExists_first_match_decides
    (c : Client) (d : ResourceData) (resp : Secret) (zs1 zs2 : list value) (z : value) :
  let run := replicationTokenExists (MetaClient c) (init d) in
  let tok := get_string d "token_id" in
  Read c (replicationPrimaryReadPath (get_string d "type")) = (Some resp, None) →
  not_nil (index (Data resp) "Errors") = false →
  index (Data resp) "secondaries" = VList (zs1 ++ z :: zs2) →
  Forall entry_ok zs1 →
  (names tok z → fst run = Done (true, None)) ∧
  (¬ Exists (names tok) zs1 → (∀ m, z ≠ VMap m) →
   fst run = Panicked (InterfaceConversion z TMapString)).
Proof.
  intros run tok HR HE Hs Hok. subst run.
  unfold replicationTokenExists. cbn. rewrite HR. cbn. rewrite HE, Hs. cbn.
  fold tok. unfold bind.
  match goal with |- context [scan_secondaries _ _ ?w] =>
    destruct (scan_secondaries_prefix zs1 z zs2 tok w Hok) as [H1 H2]
  end.
  split.
  - intros Hz. by rewrite (H1 Hz).
  - intros Hno Hz. by rewrite (H2 Hno Hz).
Qed.

(** A status whose first secondary carries the token id and whose second
    is not even an object. *)
Definition ragged_answer : Secret :=
  {| Data := {[ "secondaries" :=
                  VList [VMap {[ "node_id" := VString "sec-1" ]}; VBool true] ]};
     WrapInfo := None |}.

Definition ragged_client : Client := {|
  Write := λ _ _, (None, None);
  Read := λ _, (Some ragged_answer, None);
  RawRequest := λ _, Body ∅
|}.

Lemma replicationTokenExists_first_match_decides_witness :
  let run := replicationTokenExists (MetaClient ragged_client) (init token_request) in
  let tok := get_string token_request "token_id" in
  (names tok (VMap {[ "node_id" := VString "sec-1" ]}) → fst run = Done (true, None)) ∧
  (¬ Exists (names tok) [] → (∀ m, VMap {[ "node_id" := VString "sec-1" ]} ≠ VMap m) →
   fst run = Panicked (InterfaceConversion (VMap {[ "node_id" := VString "sec-1" ]})
                         TMapString)).
Proof.
  apply (replicationTokenExists_first_match_decides ragged_client token_request
           ragged_answer [] [VBool true] (VMap {[ "node_id" := VString "sec-1" ]})).
  - reflexivity.
  - reflexivity.
  - reflexivity.
  - constructor.
Defined.

Example token_scan_panics :
  fst (replicationTokenExists
         (MetaClient {| Write := Write ragged_client;
                        Read := λ _, (Some {| Data := {[ "secondaries" :=
                                                           VList [VBool true;
                                                                  VMap {[ "node_id" := VString "sec-1" ]}] ]};
                                              WrapInfo := None |}, None);
                        RawRequest := RawRequest ragged_client |})
         (init token_request)) =
  Panicked (InterfaceConversion (VBool true) TMapString).
Proof. vm_compute. reflexivity. Qed.

(** ** Paths *)

Lemma string_length_app (a b : string) :
  String.length (a ++ b) = String.length a + String.length b.
Proof. induction a as [|ch a IH]; [done|]. simpl. by f_equal. Qed.

Lemma string_app_inj_r (s a b : string) : (a ++ s = b ++ s)%string → a = b.
Proof.
  revert b. induction a as [|ch a IH]; intros [|ch' b] H; [done| | |].
  - apply (f_equal String.length) in H. rewrite !string_length_app in H.
    simpl in H. lia.
  - apply (f_equal String.length) in H. rewrite !string_length_app in H.
    simpl in H. lia.
  - simpl in H. injection H as -> H. f_equal. by apply IH.
Qed.

(** The paths of one operation for two types. *)
Lemma path_type_inj (suffix t1 t2 : string) :
  (replicationPath ++ t1 ++ suffix = replicationPath ++ t2 ++ suffix)%string → t1 = t2.
Proof. intros H. apply (inj _) in H. by apply string_app_inj_r in H. Qed.

(** The six write paths and the status path. *)
Definition all_paths (typeValue : string) : list string :=
  [replicationPrimaryCreatePath typeValue; replicationPrimaryDeletePath typeValue;
   replicationSecondaryCreatePath typeValue; replicationSecondaryDeletePath typeValue;
   replicationTokenCreatePath typeValue; replicationTokenDeletePath typeValue;
   replicationPrimaryReadPath typeValue].

(** Paths tell types and operations apart: the path of an operation for
    one type is the path of the same operation for another type only if
    the types are equal (so the identifier a creation sets determines the
    type), and for one type the six write paths and the status path are
    all different. The two status paths are one and the same. *)
Theorem paths_are_distinct (t1 t2 : string) :
  (∀ i p, all_paths t1 !! i = Some p → all_paths t2 !! i = Some p → t1 = t2) ∧
  NoDup (all_paths t1) ∧
  replicationSecondaryReadPath t1 = replicationPrimaryReadPath t1.
Proof.
  split_and!; [| |reflexivity].
  - intros i p H1 H2.
    do 7 (destruct i as [|i];
          [apply (inj Some) in H1, H2; rewrite <- H2 in H1;
           exact (path_type_inj _ _ _ H1)|]).
    discriminate H1.
  - unfold all_paths, replicationPrimaryCreatePath, replicationPrimaryDeletePath,
      replicationSecondaryCreatePath, replicationSecondaryDeletePath,
      replicationTokenCreatePath, replicationTokenDeletePath, replicationPrimaryReadPath.
    repeat (apply NoDup_cons; split;
            [rewrite ?elem_of_cons, elem_of_nil;
             intros H; repeat destruct H as [H|H]; try done;
             apply (inj _), (inj _) in H; discriminate|]).
    apply NoDup_nil_2.
Qed.

(** * The earlier primary configuration resource

    [resource_replication_primary_config.go] holds an earlier version of
    the primary resource. Its [waitForReplication] polls the status path
    itself, in a loop without a bound, comparing the field state of the
    status with the wanted state. Its status changes between reads, so the
    client here answers a read by its position among the reads of the run. *)
Module legacy.

Record Client : Type := {
  Write : string → payload → option Secret * option error;
  ReadAt : nat → string → option Secret * option error
}.

Inductive Meta : Type :=
| MetaClient (c : Client)
| MetaError (e : error).

Definition is_read (e : event) : bool :=
  match e with EvRead _ => true | _ => false end.

(** Number of logical reads issued so far. *)
Definition reads (t : list event) : nat :=
  length (filter (λ e, is_read e = true) t).

Definition Logical_Read (c : Client) (path : string)
  : M (option Secret * option error) :=
  λ w, (Done (ReadAt c (reads (trace w)) path),
        {| rd := rd w; trace := trace w ++ [EvRead path] |}).

(** The [for] loop of the earlier [waitForReplication]. The error of the
    read is dropped ([resp, _ := ...]) and [resp.Data] is read through the
    pointer whether it is nil or not. *)
Fixpoint wait_loop (fuel : nat) (client : Client) (state path : string) : M unit :=
  match fuel with
  | O => out_of_fuel
  | S fuel' =>
      r <- Logical_Read client path ;;
      resp <- deref r.1 ;;
      if has_key (Data resp) "state" then
        if eq_string (index (Data resp) "state") state then ret ()
        else
          emit (EvSleep (1 * Second)%Z) ;;
          wait_loop fuel' client state path
      else wait_loop fuel' client state path
  end.

Definition waitForReplication (fuel : nat) (state path : string) (meta : Meta)
  : M (option error) :=
  match meta with
  | MetaError e => ret (Some e)
  | MetaClient client =>
      wait_loop fuel client state path ;;
      ret None
  end.

End legacy.

(** ** Properties of the earlier wait *)

(** The answer to a read shows [state] in its field state. *)
Definition shows (state : string) (r : option Secret * option error) : Prop :=
  ∃ resp, r.1 = Some resp ∧ index (Data resp) "state" = VString state.

(** The answer to a read has a body that does not show [state]. *)
Definition pending (state : string) (r : option Secret * option error) : Prop :=
  ∃ resp, r.1 = Some resp ∧ index (Data resp) "state" ≠ VString state.

(** The sleep that follows a pending answer: none when the answer has no
    field state at all. *)
Definition nap (r : option Secret * option error) : list event :=
  match r.1 with
  | Some resp => if has_key (Data resp) "state" then [EvSleep Second] else []
  | None => []
  end.

(** The events of the reads [from], ..., [from + k - 1], all pending. *)
Fixpoint poll_events (c : legacy.Client) (path : string) (from k : nat) : list event :=
  match k with
  | O => []
  | S k' => EvRead path :: nap (legacy.ReadAt c from path) ++
            poll_events c path (S from) k'
  end.

Lemma has_key_index (m : gmap string value) (k : string) (s : string) :
  index m k = VString s → has_key m k = true.
Proof.
  unfold index, has_key. intros H. apply bool_decide_eq_true.
  destruct (m !! k); [by eexists|discriminate].
Qed.

Lemma legacy_reads_app t1 t2 :
  legacy.reads (t1 ++ t2) = legacy.reads t1 + legacy.reads t2.
Proof. unfold legacy.reads. by rewrite filter_app, length_app. Qed.

Lemma legacy_reads_nap r : legacy.reads (nap r) = 0.
Proof. unfold nap. destruct r.1 as [resp|]; [|done]. by destruct (has_key _ _). Qed.

Lemma legacy_reads_poll_events c path from k :
  legacy.reads (poll_events c path from k) = k.
Proof.
  revert from. induction k as [|k IH]; intros from; [done|].
  cbn [poll_events].
  change (EvRead path :: nap (legacy.ReadAt c from path) ++ poll_events c path (S from) k)
    with ([EvRead path] ++ nap (legacy.ReadAt c from path) ++
          poll_events c path (S from) k).
  rewrite !legacy_reads_app, legacy_reads_nap, IH. reflexivity.
Qed.

(** One turn of the loop on a pending answer. *)
Lemma legacy_wait_loop_pending fuel c state path w :
  pending state (legacy.ReadAt c (legacy.reads (trace w)) path) →
  legacy.wait_loop (S fuel) c state path w =
  legacy.wait_loop fuel c state path
    {| rd := rd w;
       trace := trace w ++ EvRead path ::
                nap (legacy.ReadAt c (legacy.reads (trace w)) path) |}.
Proof.
  intros (resp & Hr & Hs). cbn [legacy.wait_loop]. unfold bind at 1.
  unfold legacy.Logical_Read, nap. rewrite Hr. cbn.
  destruct (has_key (Data resp) "state").
  - destruct (eq_string (index (Data resp) "state") state) eqn:E.
    + by apply eq_string_true in E.
    + unfold bind, emit. cbn. by rewrite <- app_assoc.
  - reflexivity.
Qed.

(** As long as the answers are pending the loop goes on. *)
Lemma legacy_wait_loop_polls c state path k :
  ∀ fuel w,
    (∀ j, j < k → pending state (legacy.ReadAt c (legacy.reads (trace w) + j) path)) →
    legacy.wait_loop (k + fuel) c state path w =
    legacy.wait_loop fuel c state path
      {| rd := rd w;
         trace := trace w ++ poll_events c path (legacy.reads (trace w)) k |}.
Proof.
  induction k as [|k IH]; intros fuel w Hp.
  - cbn. rewrite app_nil_r. by destruct w.
  - cbn [Nat.add poll_events].
    rewrite legacy_wait_loop_pending
      by (rewrite <- (Nat.add_0_r (legacy.reads _)); apply Hp; lia).
    assert (legacy.reads
              (trace w ++ EvRead path ::
               nap (legacy.ReadAt c (legacy.reads (trace w)) path)) =
            S (legacy.reads (trace w))) as Hrd.
    { change (EvRead path :: nap (legacy.ReadAt c (legacy.reads (trace w)) path))
        with ([EvRead path] ++ nap (legacy.ReadAt c (legacy.reads (trace w)) path)).
      rewrite !legacy_reads_app, legacy_reads_nap.
      change (legacy.reads [EvRead path]) with 1. lia. }
    rewrite IH; cbn [rd trace]; rewrite Hrd.
    + by rewrite <- app_assoc.
    + intros j Hj.
      replace (S (legacy.reads (trace w)) + j)
        with (legacy.reads (trace w) + S j) by lia.
      apply Hp. lia.
Qed.

(** The earlier wait has no bound: on a cluster whose status never shows
    the wanted state it does not return, however long it is let run, and
    after [fuel] turns it has read the status [fuel] times. *)
Theorem legacy_wait_never_gives_up
    (c : legacy.Client) (state path : string) (d : ResourceData) (fuel : nat) :
  (∀ n, pending state (legacy.ReadAt c n path)) →
  legacy.waitForReplication fuel state path (legacy.MetaClient c) (init d) =
    (OutOfFuel, {| rd := d; trace := poll_events c path 0 fuel |}) ∧
  legacy.reads (poll_events c path 0 fuel) = fuel.
Proof.
  intros Hp. split; [|apply legacy_reads_poll_events].
  unfold legacy.waitForReplication, bind.
  pose proof (legacy_wait_loop_polls c state path fuel 0 (init d)) as Hrun.
  rewrite Nat.add_0_r in Hrun. rewrite Hrun by (intros; apply Hp).
  reflexivity.
Qed.

(** The earlier wait returns nil at the first read that shows the wanted
    state, after as many reads; before it, it has slept one second after
    every answer that had a field state and not at all after the others. *)
Theorem legacy_wait_first_match
    (c : legacy.Client) (state path : string) (d : ResourceData) (fuel n : nat) :
  n < fuel →
  (∀ j, j < n → pending state (legacy.ReadAt c j path)) →
  shows state (legacy.ReadAt c n path) →
  legacy.waitForReplication fuel state path (legacy.MetaClient c) (init d) =
    (Done None, {| rd := d; trace := poll_events c path 0 n ++ [EvRead path] |}) ∧
  legacy.reads (poll_events c path 0 n ++ [EvRead path]) = S n.
Proof.
  intros Hfuel Hp (resp & Hr & Hs). split.
  - unfold legacy.waitForReplication, bind.
    replace fuel with (n + S (fuel - S n)) by lia.
    rewrite (legacy_wait_loop_polls c state path n _ (init d)) by (intros; by apply Hp).
    cbn [legacy.wait_loop init trace rd app]. unfold bind at 1.
    unfold legacy.Logical_Read. cbn [trace rd].
    rewrite legacy_reads_poll_events, Hr. cbn.
    rewrite (has_key_index _ _ _ Hs), Hs. cbn.
    by rewrite bool_decide_eq_true_2.
  - rewrite legacy_reads_app, legacy_reads_poll_events.
    change (legacy.reads [EvRead path]) with 1. lia.
Qed.

(** The earlier wait drops the error of the read and looks into the
    answer all the same: the first read that comes back without an answer
    makes it panic. *)
Theorem legacy_wait_panics_without_answer
    (c : legacy.Client) (state path : string) (d : ResourceData) (fuel n : nat) :
  n < fuel →
  (∀ j, j < n → pending state (legacy.ReadAt c j path)) →
  (legacy.ReadAt c n path).1 = None →
  legacy.waitForReplication fuel state path (legacy.MetaClient c) (init d) =
    (Panicked NilDereference,
     {| rd := d; trace := poll_events c path 0 n ++ [EvRead path] |}).
Proof.
  intros Hfuel Hp Hr.
  unfold legacy.waitForReplication, bind.
  replace fuel with (n + S (fuel - S n)) by lia.
  rewrite (legacy_wait_loop_polls c state path n _ (init d)) by (intros; by apply Hp).
  cbn [legacy.wait_loop init trace rd app]. unfold bind at 1.
  unfold legacy.Logical_Read. cbn [trace rd].
  by rewrite legacy_reads_poll_events, Hr.
Qed.

Definition status_with_state (s : string) : option Secret * option error :=
  (Some {| Data := {[ "state" := VString s ]}; WrapInfo := None |}, None).

(** A primary that stays idle. *)
Definition idle_cluster : legacy.Client := {|
  legacy.Write := λ _ _, (None, None);
  legacy.ReadAt := λ _ _, status_with_state "idle"
|}.

(** A primary whose first status has no state, the second is idle and the
    third is running. *)
Definition warming_cluster : legacy.Client := {|
  legacy.Write := λ _ _, (None, None);
  legacy.ReadAt := λ n _,
    match n with
    | 0 => (Some {| Data := ∅; WrapInfo := None |}, None)
    | 1 => status_with_state "idle"
    | _ => status_with_state "running"
    end
|}.

(** A primary that is idle at first and then cannot be reached. *)
Definition vanishing_cluster : legacy.Client := {|
  legacy.Write := λ _ _, (None, None);
  legacy.ReadAt := λ n _,
    match n with
    | 0 => status_with_state "idle"
    | _ => (None, Some (ErrExternal "connection refused"))
    end
|}.

Lemma legacy_wait_never_gives_up_witness :
  legacy.waitForReplication 5 "running" "/sys/replication/dr/status"
    (legacy.MetaClient idle_cluster) (init blank) =
    (OutOfFuel,
     {| rd := blank;
        trace := poll_events idle_cluster "/sys/replication/dr/status" 0 5 |}) ∧
  legacy.reads (poll_events idle_cluster "/sys/replication/dr/status" 0 5) = 5.
Proof.
  apply (legacy_wait_never_gives_up idle_cluster "running"
           "/sys/replication/dr/status" blank 5).
  intros n. eexists. split; [reflexivity|]. vm_compute. discriminate.
Defined.

Lemma legacy_wait_first_match_witness :
  legacy.waitForReplication 3 "running" "/sys/replication/dr/status"
    (legacy.MetaClient warming_cluster) (init blank) =
    (Done None,
     {| rd := blank;
        trace := poll_events warming_cluster "/sys/replication/dr/status" 0 2 ++
                 [EvRead "/sys/replication/dr/status"] |}) ∧
  legacy.reads (poll_events warming_cluster "/sys/replication/dr/status" 0 2 ++
                [EvRead "/sys/replication/dr/status"]) = 3.
Proof.
  apply (legacy_wait_first_match warming_cluster "running"
           "/sys/replication/dr/status" blank 3 2).
  - lia.
  - intros j Hj. destruct j as [|[|j]]; [| |lia];
      (eexists; split; [reflexivity|]; vm_compute; discriminate).
  - eexists. split; reflexivity.
Defined.

Example legacy_wait_sleeps_only_on_a_state :
  poll_events warming_cluster "/sys/replication/dr/status" 0 2 =
  [EvRead "/sys/replication/dr/status";
   EvRead "/sys/replication/dr/status"; EvSleep Second].
Proof. vm_compute. reflexivity. Qed.

Lemma legacy_wait_panics_without_answer_witness :
  legacy.waitForReplication 2 "running" "/sys/replication/dr/status"
    (legacy.MetaClient vanishing_cluster) (init blank) =
    (Panicked NilDereference,
     {| rd := blank;
        trace := poll_events vanishing_cluster "/sys/replication/dr/status" 0 1 ++
                 [EvRead "/sys/replication/dr/status"] |}).
Proof.
  apply (legacy_wait_panics_without_answer vanishing_cluster "running"
           "/sys/replication/dr/status" blank 2 1).
  - lia.
  - intros j Hj. destruct j as [|j]; [|lia].
    eexists; split; [reflexivity|]; vm_compute; discriminate.
  - reflexivity.
Defined.

(** * The PingID MFA method resource: path and request data *)

(** [strings.Trim(s, cutset)] for a cutset of one ASCII byte [c], as the
    Go library computes it: [trimLeftByte(trimRightByte(s, c), c)]. *)
Fixpoint trimLeftByte (s : string) (c : Ascii.ascii) : string :=
  match s with
  | EmptyString => EmptyString
  | String a s' => if Ascii.eqb a c then trimLeftByte s' c else s
  end.

Fixpoint trimRightByte (s : string) (c : Ascii.ascii) : string :=
  match s with
  | EmptyString => EmptyString
  | String a s' =>
      match trimRightByte s' c with
      | EmptyString => if Ascii.eqb a c then EmptyString else String a EmptyString
      | t => String a t
      end
  end.

Definition Trim (s : string) (c : Ascii.ascii) : string :=
  trimLeftByte (trimRightByte s c) c.

(** The byte 0x2F, "/". *)
Definition slash : Ascii.ascii := Ascii.ascii_of_nat 47.

Definition mfaPingIDPath (name : string) : string :=
  "sys/mfa/method/pingid/" ++ Trim name slash.

(** The loop of [mfaPingIDRequestData] over the field names. *)
Fixpoint request_fields (fields : list string) (data : gmap string value)
  : M (gmap string value) :=
  match fields with
  | [] => ret data
  | k :: fields' =>
      g <- GetOk k ;;
      request_fields fields' (if g.2 then <[ k := g.1 ]> data else data)
  end.

Definition mfaPingIDRequestData : M (gmap string value) :=
  request_fields ["name"; "mount_accessor"; "settings_file_base64"; "username_format"] ∅.

(** ** Properties *)

Definition starts_with (c : Ascii.ascii) (s : string) : bool :=
  match s with
  | EmptyString => false
  | String a _ => Ascii.eqb a c
  end.

Fixpoint ends_with (c : Ascii.ascii) (s : string) : bool :=
  match s with
  | EmptyString => false
  | String a EmptyString => Ascii.eqb a c
  | String _ s' => ends_with c s'
  end.

Lemma starts_with_trimLeftByte s c : starts_with c (trimLeftByte s c) = false.
Proof.
  induction s as [|a s IH]; [done|]. cbn [trimLeftByte].
  destruct (Ascii.eqb a c) eqn:E; [done|]. cbn. by rewrite E.
Qed.

Lemma ends_with_tail c a s : ends_with c (String a s) = false → ends_with c s = false.
Proof. by destruct s. Qed.

Lemma ends_with_trimLeftByte s c :
  ends_with c s = false → ends_with c (trimLeftByte s c) = false.
Proof.
  induction s as [|a s IH]; [done|]. intros H. cbn [trimLeftByte].
  destruct (Ascii.eqb a c); [|done]. apply IH. by eapply ends_with_tail.
Qed.

Lemma ends_with_trimRightByte s c : ends_with c (trimRightByte s c) = false.
Proof.
  induction s as [|a s IH]; [done|]. cbn [trimRightByte].
  destruct (trimRightByte s c) as [|b t].
  - destruct (Ascii.eqb a c) eqn:E; [done|]. cbn. by rewrite E.
  - exact IH.
Qed.

Lemma trimRightByte_clean s c : ends_with c s = false → trimRightByte s c = s.
Proof.
  induction s as [|a s IH]; [done|]. intros H. cbn [trimRightByte].
  destruct s as [|b t].
  - cbn in *. by rewrite H.
  - rewrite IH by done. reflexivity.
Qed.

Lemma trimLeftByte_clean s c : starts_with c s = false → trimLeftByte s c = s.
Proof. destruct s as [|a s]; [done|]. cbn. by intros ->. Qed.

Lemma trimRightByte_snoc s c : trimRightByte (s ++ String c "") c = trimRightByte s c.
Proof.
  induction s as [|a s IH]; simpl.
  - by rewrite Ascii.eqb_refl.
  - by rewrite IH.
Qed.

Lemma Trim_cons s c : Trim (String c s) c = Trim s c.
Proof.
  unfold Trim. cbn [trimRightByte].
  destruct (trimRightByte s c) as [|b t]; cbn [trimLeftByte];
    by rewrite Ascii.eqb_refl.
Qed.

(** Slashes around the name of a method do not count: a name gives the
    same path with a slash put before or after it; what follows the prefix
    in the path neither starts nor ends with a slash; and a name that has
    no slash at either end is appended as it is. *)
Theorem mfaPingIDPath_trims_slashes (name : string) :
  mfaPingIDPath (String slash name) = mfaPingIDPath name ∧
  mfaPingIDPath (name ++ "/")%string = mfaPingIDPath name ∧
  (∃ core, mfaPingIDPath name = ("sys/mfa/method/pingid/" ++ core)%string ∧
           starts_with slash core = false ∧ ends_with slash core = false) ∧
  (starts_with slash name = false → ends_with slash name = false →
   mfaPingIDPath name = ("sys/mfa/method/pingid/" ++ name)%string).
Proof.
  unfold mfaPingIDPath. split_and!.
  - by rewrite Trim_cons.
  - unfold Trim. do 2 f_equal. exact (trimRightByte_snoc name slash).
  - exists (Trim name slash). split_and!; [done| |].
    + apply starts_with_trimLeftByte.
    + apply ends_with_trimLeftByte, ends_with_trimRightByte.
  - intros Hs He. unfold Trim.
    by rewrite trimRightByte_clean, trimLeftByte_clean.
Qed.

Example mfaPingIDPath_examples :
  mfaPingIDPath "/my/method//" = "sys/mfa/method/pingid/my/method" ∧
  mfaPingIDPath "///" = "sys/mfa/method/pingid/".
Proof. split; reflexivity. Qed.

Lemma request_fields_run fields data w :
  ∃ data',
    request_fields fields data w = (Done data', w) ∧
    ∀ k, data' !! k =
         if bool_decide (k ∈ fields ∧ get_string (rd w) k ≠ "")
         then Some (VString (get_string (rd w) k))
         else data !! k.
Proof.
  revert data. induction fields as [|f fields IH]; intros data.
  - exists data. split; [done|]. intros k.
    rewrite bool_decide_eq_false_2; [done|]. by intros [?%elem_of_nil _].
  - cbn [request_fields]. unfold bind, GetOk. cbn [fst snd].
    destruct (IH (if negb (bool_decide (get_string (rd w) f = ""))
                  then <[f:=VString (get_string (rd w) f)]> data else data))
      as (data' & Hrun & Hl).
    exists data'. split; [done|]. intros k. rewrite Hl.
    destruct (decide (k ∈ fields ∧ get_string (rd w) k ≠ "")) as [[Hin Hne]|Hno].
    + rewrite !bool_decide_eq_true_2; [done| |done]. split; [|done].
      by apply elem_of_cons; right.
    + rewrite (bool_decide_eq_false_2 _ Hno).
      destruct (decide (k = f)) as [->|Hkf].
      * case_bool_decide as He; cbn.
        -- rewrite bool_decide_eq_false_2; [done|]. by intros [_ ?].
        -- rewrite bool_decide_eq_true_2, lookup_insert_eq; [done|].
           split; [by apply elem_of_cons; left|done].
      * rewrite (bool_decide_eq_false_2 (k ∈ f :: fields ∧ _)).
        -- destruct (negb _); [by rewrite lookup_insert_ne|done].
        -- intros [[?|?]%elem_of_cons ?]; [done|]. by apply Hno.
Qed.

(** The request data hold exactly the attributes among name,
    mount_accessor, settings_file_base64 and username_format that are set
    to a non-empty string, each with its value: an unset or empty
    attribute is left out and no other key is sent. Building them changes
    nothing. *)
Theorem mfaPingIDRequestData_keys (w : World) :
  ∃ data,
    mfaPingIDRequestData w = (Done data, w) ∧
    ∀ k, data !! k =
         if bool_decide (k ∈ ["name"; "mount_accessor"; "settings_file_base64";
                              "username_format"] ∧
                         get_string (rd w) k ≠ "")
         then Some (VString (get_string (rd w) k))
         else None.
Proof.
  destruct (request_fields_run
              ["name"; "mount_accessor"; "settings_file_base64"; "username_format"]
              ∅ w) as (data & Hrun & Hl).
  exists data. split; [done|]. intros k. rewrite Hl.
  by rewrite lookup_empty.
Qed.

(** * Enabling a secondary, revoking a token, disabling a secondary *)





(** Disabling a secondary and revoking a token, once the cluster has
    accepted the write: the call returns nil with that write alone in the
    trace. It neither reads the status nor waits, and it leaves the
    identifier and the attributes of the record to its caller. *)
Theorem delete_accepted
    (op : writer) (c : Client) (d : ResourceData) (fuel : nat) (resp : Secret) :
  let typeValue := get_string d "type" in
  op = SecondaryDelete ∨ op = TokenDelete →
  Write c (writer_path op typeValue) (writer_payload op d) = (Some resp, None) →
  not_nil (index (Data resp) "Errors") = false →
  run_writer op fuel (MetaClient c) (init d) =
    (Done None,
     {| rd := d; trace := [EvWrite (writer_path op typeValue) (writer_payload op d)] |}).
Proof.
  intros typeValue [-> | ->] HW HE; subst typeValue;
    unfold run_writer, writer_path, writer_payload in *;
    [unfold replicationSecondaryDelete|unfold replicationTokenDelete];
    cbn -[insert singletonM]; rewrite HW; cbn -[insert singletonM];
    by rewrite HE.
Qed.

Lemma delete_accepted_witness :
  run_writer TokenDelete 0 (MetaClient stalled_client) (init token_request) =
    (Done None,
     {| rd := token_request;
        trace := [EvWrite (writer_path TokenDelete (get_string token_request "type"))
                    (writer_payload TokenDelete token_request)] |}).
Proof.
  apply (delete_accepted TokenDelete stalled_client token_request 0
           {| Data := ∅; WrapInfo := None |}).
  - by right.
  - reflexivity.
  - reflexivity.
Defined.
